(** * ai-demo-builder: the repository analysis service

    A shallow embedding of [src/services/analysis]:
    - [file_scorer.py]: the path heuristics ([should_skip], [score_file],
      [get_high_value_files]);
    - [github_client.py]: the response convention ([create_response]) and the
      four GitHub look-ups;
    - [gemini_client.py]: the AI file selector and the suggestion generator;
    - [handler.py]: the Lambda handler, step by step.

    Python values are modelled by the types the code uses them at: [str] as
    [string] (8-bit characters; [str.lower] maps A-Z only), [int] as [Z],
    lists as [list], the DynamoDB table as a [gmap] keyed by
    (repo_url, commit_sha).  Exceptions, early returns and calls to the outside
    world are explicit. *)

From Stdlib Require Import ZArith String Ascii Bool.
From stdpp Require Import base option list gmap strings sorting.
From stdpp Require Import pretty.

Open Scope string_scope.
Open Scope list_scope.
Open Scope Z_scope.

(** ** Python strings and lists *)

Module Py.

(** [c.lower()] on one character. *)
Definition lower_ascii (c : ascii) : ascii :=
  let n := nat_of_ascii c in
  if (65 <=? n)%nat && (n <=? 90)%nat then ascii_of_nat (n + 32) else c.

(** [s.lower()] *)
Fixpoint lower (s : string) : string :=
  match s with
  | EmptyString => EmptyString
  | String c s' => String (lower_ascii c) (lower s')
  end.

(** [s.endswith(suf)] *)
Fixpoint endswith (s suf : string) : bool :=
  String.eqb suf s ||
  match s with
  | EmptyString => false
  | String _ s' => endswith s' suf
  end.

(** [sub in s] *)
Fixpoint contains (s sub : string) : bool :=
  String.prefix sub s ||
  match s with
  | EmptyString => false
  | String _ s' => contains s' sub
  end.

(** [s.count(c)] for a one-character [c]. *)
Fixpoint count (s : string) (c : ascii) : Z :=
  match s with
  | EmptyString => 0
  | String d s' => (if Ascii.eqb d c then 1 else 0) + count s' c
  end.

(** [s.split(sep)] for a one-character [sep]: never the empty list. *)
Fixpoint split (s : string) (sep : ascii) : list string :=
  match s with
  | EmptyString => [EmptyString]
  | String c s' =>
      if Ascii.eqb c sep then EmptyString :: split s' sep
      else match split s' sep with
           | [] => [String c EmptyString]
           | h :: t => String c h :: t
           end
  end.

(** [l[i]] with Python's negative indices; [None] stands for IndexError. *)
Definition index {A} (l : list A) (i : Z) : option A :=
  if 0 <=? i then l !! Z.to_nat i
  else if 0 <=? Z.of_nat (length l) + i
       then l !! Z.to_nat (Z.of_nat (length l) + i)
       else None.

(** [l[:n]]: a negative [n] counts from the end. *)
Definition slice_to {A} (l : list A) (n : Z) : list A :=
  if 0 <=? n then take (Z.to_nat n) l
  else take (Z.to_nat (Z.of_nat (length l) + n)) l.

(** [s.rstrip(c)] for a one-character [c]. *)
Fixpoint rstrip (s : string) (c : ascii) : string :=
  match s with
  | EmptyString => EmptyString
  | String d s' =>
      match rstrip s' c with
      | EmptyString => if Ascii.eqb d c then EmptyString else String d EmptyString
      | r => String d r
      end
  end.

(** [s[:-n]] for [n > 0]: the string without its last [n] characters. *)
Definition drop_last (s : string) (n : nat) : string :=
  String.substring 0 (String.length s - n) s.

(** [len(s)] and [len(l)] *)
Definition len_str (s : string) : Z := Z.of_nat (String.length s).
Definition len {A} (l : list A) : Z := Z.of_nat (length l).

(** The regular expressions of [file_scorer.py] are literals (dots
    escaped), some anchored by a final [$]. *)
Inductive regex :=
| Lit (s : string)
| LitEnd (s : string).

(** [re.search(pattern, s)] as a truth value.  Without [re.MULTILINE], [$]
    matches at the end of the string and just before a newline that ends
    the string. *)
Definition search (r : regex) (s : string) : bool :=
  match r with
  | Lit p => contains s p
  | LitEnd p => endswith s p || endswith s (p +:+ String "010"%char EmptyString)
  end.

End Py.

(** ** file_scorer.py *)

(** Priority scores for specific files. *)
Definition FILE_SCORES : list (string * Z) :=
  [ ("package.json", 100); ("requirements.txt", 100); ("pyproject.toml", 100);
    ("go.mod", 100); ("cargo.toml", 100); ("pom.xml", 100);
    ("build.gradle", 100); ("gemfile", 95); ("composer.json", 95);
    ("readme.md", 95); ("readme", 95); ("readme.txt", 95);
    ("contributing.md", 60); ("changelog.md", 50);
    ("main.py", 90); ("app.py", 90); ("index.py", 90); ("index.js", 90);
    ("index.ts", 90); ("index.tsx", 90); ("main.js", 90); ("main.ts", 90);
    ("app.js", 85); ("app.ts", 85); ("app.tsx", 85); ("main.go", 90);
    ("main.rs", 90);
    ("dockerfile", 70); ("docker-compose.yml", 70);
    ("docker-compose.yaml", 70); (".env.example", 60);
    ("tsconfig.json", 50); ("webpack.config.js", 50);
    ("vite.config.js", 50); ("next.config.js", 50) ].

(** Bonus scores for path patterns. *)
Definition PATH_PATTERNS : list (Py.regex * Z) :=
  [ (Py.Lit "/routes/", 40); (Py.Lit "/api/", 40);
    (Py.Lit "/controllers/", 40); (Py.Lit "/handlers/", 35);
    (Py.Lit "/pages/", 35); (Py.Lit "/views/", 35);
    (Py.Lit "/components/", 30); (Py.Lit "/services/", 30);
    (Py.Lit "/models/", 25); (Py.Lit "/src/", 10); (Py.Lit "/lib/", 10);
    (Py.Lit "/app/", 10) ].

(** Patterns to skip. *)
Definition SKIP_PATTERNS : list Py.regex :=
  [ Py.Lit "node_modules/"; Py.Lit "vendor/"; Py.Lit ".git/"; Py.Lit "dist/";
    Py.Lit "build/"; Py.LitEnd ".min.js"; Py.LitEnd ".min.css";
    Py.LitEnd ".map"; Py.LitEnd ".lock"; Py.LitEnd "package-lock.json";
    Py.LitEnd "yarn.lock"; Py.LitEnd ".png"; Py.LitEnd ".jpg";
    Py.LitEnd ".jpeg"; Py.LitEnd ".gif"; Py.LitEnd ".svg"; Py.LitEnd ".ico";
    Py.Lit ".woff"; Py.LitEnd ".ttf"; Py.LitEnd ".eot"; Py.LitEnd ".mp4";
    Py.LitEnd ".mp3"; Py.LitEnd ".pdf"; Py.LitEnd ".zip"; Py.LitEnd ".tar";
    Py.LitEnd ".gz"; Py.Lit "__pycache__/"; Py.LitEnd ".pyc";
    Py.Lit ".test."; Py.Lit ".spec."; Py.LitEnd "_test.go" ].

(** The [for pattern in SKIP_PATTERNS] loop of [should_skip]. *)
Fixpoint skip_loop (patterns : list Py.regex) (path_lower : string) : bool :=
  match patterns with
  | [] => false
  | pattern :: rest =>
      if Py.search pattern path_lower then true else skip_loop rest path_lower
  end.

Definition should_skip (path : string) : bool :=
  let path_lower := Py.lower path in
  skip_loop SKIP_PATTERNS path_lower.

(** [FILE_SCORES[filename]] when [filename in FILE_SCORES]. *)
Fixpoint dict_get (d : list (string * Z)) (key : string) : option Z :=
  match d with
  | [] => None
  | (k, v) :: rest => if String.eqb k key then Some v else dict_get rest key
  end.

(** The [for pattern, bonus in PATH_PATTERNS] loop of [score_file]: the
    [break] leaves the loop at the first match. *)
Fixpoint path_bonus_loop (patterns : list (Py.regex * Z)) (path_lower : string)
    (score : Z) : Z :=
  match patterns with
  | [] => score
  | (pattern, bonus) :: rest =>
      if Py.search pattern path_lower then score + bonus
      else path_bonus_loop rest path_lower score
  end.

Definition score_file (path : string) (size : Z) : Z :=
  if should_skip path then -1
  else if size >? 500000 then -1
  else
    let score := 0 in
    let path_lower := Py.lower path in
    let filename := default "" (Py.index (Py.split path_lower "/") (-1)) in
    let score :=
      match dict_get FILE_SCORES filename with
      | Some v => score + v
      | None => score
      end in
    let score := path_bonus_loop PATH_PATTERNS path_lower score in
    let depth := Py.count path "/" in
    let score := if depth <=? 1 then score + 5 else score in
    score.

(** A file dictionary [{"path": ..., "size": ...}]; a key may be absent. *)
Record file := File { file_path : option string; file_size : option Z }.

(** A [{"path": path, "score": score}] entry of [scored_files]. *)
Record scored := Scored { scored_path : string; scored_score : Z }.

(** [file.get("path", "")], [file.get("size", 0)] *)
Definition file_get_path (f : file) : string := default "" (file_path f).
Definition file_get_size (f : file) : Z := default 0 (file_size f).

Definition file_score (f : file) : Z :=
  score_file (file_get_path f) (file_get_size f).

(** The scoring loop of [get_high_value_files]. *)
Fixpoint score_loop (files : list file) : list scored :=
  match files with
  | [] => []
  | f :: rest =>
      let path := file_get_path f in
      let size := file_get_size f in
      let score := score_file path size in
      if 0 <=? score then Scored path score :: score_loop rest
      else score_loop rest
  end.

(** [scored_files.sort(key=lambda x: x["score"], reverse=True)]: Python's
    sort is stable, also with [reverse=True]; the stable sort of a list is
    unique, here computed by insertion. *)
Fixpoint insert_desc (x : scored) (l : list scored) : list scored :=
  match l with
  | [] => [x]
  | y :: l' =>
      if scored_score y <=? scored_score x then x :: y :: l'
      else y :: insert_desc x l'
  end.

Fixpoint sort_desc (l : list scored) : list scored :=
  match l with
  | [] => []
  | x :: l' => insert_desc x (sort_desc l')
  end.

Definition get_high_value_files (files : list file) (max_files : Z)
    : list string :=
  let scored_files := score_loop files in
  let scored_files := sort_desc scored_files in
  let top_files := scored_path <$> Py.slice_to scored_files max_files in
  top_files.

(** The scoring contract in the words of the specification. *)
Module ScoreSpec.

(** The path matches a skip rule: some skip pattern is found in the
    lower-cased path. *)
Definition matches_skip_rule (path : string) : Prop :=
  ∃ p, p ∈ SKIP_PATTERNS ∧ Py.search p (Py.lower path) = true.

(** [seg] is the final segment of [s]. *)
Definition final_segment (s seg : string) : Prop :=
  Py.count seg "/" = 0 ∧ (s = seg ∨ ∃ dir, s = dir +:+ "/" +:+ seg).

(** (a) the bonus of the priority table for the final segment of the
    lower-cased path, nothing when the table does not list it. *)
Definition filename_bonus (path : string) (fb : Z) : Prop :=
  ∃ seg, final_segment (Py.lower path) seg ∧
         ((seg, fb) ∈ FILE_SCORES ∨ (¬ (seg ∈ fst <$> FILE_SCORES) ∧ fb = 0)).

(** (b) at most one path-pattern bonus: that of the first pattern found in
    the lower-cased path. *)
Definition first_pattern_bonus (path : string) (pb : Z) : Prop :=
  (∃ pre p post,
      PATH_PATTERNS = pre ++ (p, pb) :: post ∧
      Py.search p (Py.lower path) = true ∧
      Forall (λ q, Py.search q.1 (Py.lower path) = false) pre) ∨
  (Forall (λ q, Py.search q.1 (Py.lower path) = false) PATH_PATTERNS ∧
   pb = 0).

(** (c) +5 when the path holds at most one [/]. *)
Definition depth_bonus (path : string) (db : Z) : Prop :=
  (Py.count path "/" ≤ 1 ∧ db = 5) ∨ (1 < Py.count path "/" ∧ db = 0).

End ScoreSpec.

(** Every input file with the score the scoring pass gives it, in input
    order. *)
Definition score_all (files : list file) : list scored :=
  (λ f, Scored (file_get_path f) (file_score f)) <$> files.

(** Descending by score. *)
Definition score_ge (a b : scored) : Prop := scored_score b ≤ scored_score a.


(** ** Values exchanged with the outside world *)

(** A JSON value as [json.loads] returns it. *)
#[local] Unset Elimination Schemes.
Inductive json :=
| JNull
| JBool (b : bool)
| JInt (n : Z)
| JStr (s : string)
| JList (l : list json)
| JDict (d : list (string * json)).
#[local] Set Elimination Schemes.

(** The [data] dictionary of [get_repo_metadata]: all seven keys are always
    set; [None] is Python's [None]. *)
Record metadata := Metadata {
  md_name : option string;
  md_description : option string;
  md_stars : option Z;
  md_topics : list string;
  md_default_branch : option string;
  md_language : option string;
  md_html_url : option string }.

(** The [data] dictionary of [get_file_content]. *)
Record content_data := ContentData {
  cd_path : string;
  cd_content : option string;
  cd_size : Z;
  cd_skipped : bool;
  cd_reason : option string }.

(** The [data] dictionaries the clients build.  The commit dictionary is kept
    as its list of keys and values. *)
Inductive data :=
| MetadataDict (m : metadata)
| CommitDict (d : list (string * option string))
| TreeDict (files : list file) (truncated : bool) (file_count : Z)
| ContentDict (c : content_data)
| SuggestionDict (suggestions : json) (suggestion_count : Z).

(** The [body] of a response: [{"error_code": ...}] (with a ["message"] in
    one case) or [{"data": ...}]. *)
Inductive body :=
| ErrorBody (error_code : string) (message : option string)
| DataBody (d : option data).

(** [{"statusCode": ..., "body": ...}] *)
Record response := Response { statusCode : Z; resp_body : body }.

(** The [analysis] dictionary of step 9. *)
Record analysis := Analysis {
  repo_name : option string;
  description : option string;
  language : option string;
  stars : option Z;
  topics : list string;
  html_url : option string;
  default_branch : option string;
  file_count : Z;
  files_analyzed : list string;
  selection_method : string }.

(** What [handler] returns: a status dictionary, or the pay-load
    [{"analysis", "suggestions", "from_cache"}]. *)
Inductive result :=
| Status (r : response)
| Payload (a : analysis) (suggestions : json) (from_cache : bool).

(** An item of the cache table; [ci_created_at] stands for the date whose
    [isoformat()] text is stored. *)
Record cache_item := CacheItem {
  ci_repo_url : string;
  ci_commit_sha : string;
  ci_analysis : analysis;
  ci_suggestions : json;
  ci_created_at : Z;
  ci_ttl : Z }.

(** The event of an invocation: [event.get('github_url', None)]. *)
Record event := Event { github_url : option string }.

(** ** The outside world *)

(** What [requests.get] does: a response with a status code and, for a 200,
    the decoded body; or one of the exceptions the clients catch. *)
Inductive http (A : Type) :=
| Resp (status_code : Z) (payload : A)
| Timeout
| ConnectionError
| RequestException.
Arguments Resp {A}.
Arguments Timeout {A}.
Arguments ConnectionError {A}.
Arguments RequestException {A}.

(** The JSON documents of the GitHub API, by the keys the client reads. *)
Record repo_json := RepoJson {
  rj_name : option string;
  rj_description : option string;
  rj_stargazers_count : option Z;
  rj_topics : option (list string);
  rj_default_branch : option string;
  rj_language : option string;
  rj_html_url : option string }.

Record commit_json := CommitJson { cj_sha : option string }.

Record tree_item := TreeItem {
  ti_path : string; ti_type : string; ti_size : option Z }.

Record tree_json := TreeJson {
  tj_tree : list tree_item; tj_truncated : bool }.

(** What the [try] block of a Gemini call comes to: the parsed answer
    ([model.generate_content], the clean-up of the text, [json.loads]), a
    [json.JSONDecodeError], or another exception with its text. *)
Inductive generated :=
| Parsed (j : json)
| JSONDecodeError
| OtherException (msg : string).

(** The collaborators of one invocation. *)
Record env := Env {
  requests_get_repo : string → string → http repo_json;
  requests_get_commit : string → string → option string → http commit_json;
  requests_get_tree : string → string → option string → http tree_json;
  requests_get_content : string → string → string → http string;
  (** [get_api_key()] *)
  api_key : option string;
  (** the answers of the model: to the file-selection prompt (built from the
      tree and [max_files]) and to the suggestion prompt (built from the
      metadata, the tree and the contents) *)
  generate_selection : list string → Z → generated;
  generate_suggestion_list :
    metadata → list string → list (string * option string) → generated;
  (** whether [get_item] / [put_item] raise *)
  get_item_raises : bool;
  put_item_raises : bool;
  (** the clock of the process: [datetime.now()] as [save_to_cache] reads
      it the first and the second time, a naive local date and time counted
      in seconds, and [int(d.timestamp())] of such a date, which goes by the
      local time zone *)
  now_first : Z;
  now_second : Z;
  local_timestamp : Z → Z;
  (** the order in which [list(set(l))] lists the elements of [l] *)
  set_order : list string → list string }.

(** The calls made to the outside, as they would be seen there. *)
Inductive call :=
| GitHubRepo (owner repo : string)
| GitHubCommit (owner repo : string) (branch : option string)
| GitHubTree (owner repo : string) (branch : option string)
| GitHubContent (owner repo path : string)
| GeminiSelect (file_tree : list string) (max_files : Z)
| GeminiSuggest
| CacheGet (repo_url commit_sha : string)
| CachePut (repo_url commit_sha : string).

(** The state an invocation changes: the cache table, with the primary key
    (repo_url, commit_sha) of [get_item], and the calls made so far (latest
    first). *)
Record world := World {
  cache_table : gmap (string * string) cache_item;
  calls : list call }.

(** ** Exceptions, early returns *)

Inductive exn :=
| AttributeError (name : string)
| UnboundLocalError (name : string)
| KeyError (key : string)
| IndexError
| TypeError (msg : string).

(** How a piece of the handler ends: it falls through with a value, it
    executes [return r], or it raises. *)
Inductive outcome (A : Type) :=
| Normal (a : A)
| Returned (r : result)
| Raised (e : exn).
Arguments Normal {A}.
Arguments Returned {A}.
Arguments Raised {A}.

Definition M (A : Type) : Type := world → outcome A * world.

#[global] Instance M_ret : MRet M := λ A a w, (Normal a, w).

#[global] Instance M_bind : MBind M := λ A B k m w,
  match m w with
  | (Normal a, w') => k a w'
  | (Returned r, w') => (Returned r, w')
  | (Raised e, w') => (Raised e, w')
  end.

Definition raise {A} (e : exn) : M A := λ w, (Raised e, w).
Definition return_ {A} (r : result) : M A := λ w, (Returned r, w).

(** One call to the outside, with its answer. *)
Definition outside {A} (c : call) (answer : A) : M A :=
  λ w, (Normal answer, World (cache_table w) (c :: calls w)).

(** [cache_table.get_item] and [cache_table.put_item] when they do not
    raise: the item under a primary key is read, or replaced. *)
Definition table_get (key : string * string) : M (option cache_item) :=
  λ w, (Normal (cache_table w !! key), w).

Definition table_put (key : string * string) (item : cache_item) : M unit :=
  λ w, (Normal (), World (<[key := item]> (cache_table w)) (calls w)).

(** Reading a local variable: [None] when no assignment has been executed. *)
Definition read_local {A} (name : string) (v : option A) : M A :=
  match v with
  | Some a => mret a
  | None => raise (UnboundLocalError name)
  end.

(** [l[i]] *)
Definition getitem_list {A} (l : list A) (i : Z) : M A :=
  match Py.index l i with
  | Some a => mret a
  | None => raise IndexError
  end.

(** [d[key]] for a dictionary kept as a list of keys and values. *)
Fixpoint getitem_dict {A} (d : list (string * A)) (key : string) : M A :=
  match d with
  | [] => raise (KeyError key)
  | (k, v) :: rest => if String.eqb k key then mret v else getitem_dict rest key
  end.

(** [d[key] = v]: a key keeps its place, a new key goes last. *)
Fixpoint setitem_dict {A} (d : list (string * A)) (key : string) (v : A)
    : list (string * A) :=
  match d with
  | [] => [(key, v)]
  | (k, v') :: rest =>
      if String.eqb k key then (k, v) :: rest
      else (k, v') :: setitem_dict rest key v
  end.

(** Binding keyword arguments to the parameters of a function: a keyword
    that names no parameter is a TypeError. *)
Fixpoint check_keywords {A} (params : list string) (kwargs : list (string * A))
    : M unit :=
  match kwargs with
  | [] => mret ()
  | (k, _) :: rest =>
      if bool_decide (k ∈ params) then check_keywords params rest
      else raise (TypeError ("got an unexpected keyword argument " +:+ k))
  end.

Fixpoint keyword {A} (kwargs : list (string * A)) (name : string) : M A :=
  match kwargs with
  | [] => raise (TypeError ("missing required argument " +:+ name))
  | (k, v) :: rest => if String.eqb k name then mret v else keyword rest name
  end.

(** The methods of a [logging.Logger] that the code calls or could call. *)
Definition logger_methods : list string :=
  ["debug"; "info"; "warning"; "warn"; "error"; "exception"; "critical";
   "fatal"; "log"].

(** [logger.<name>(...)]: the attribute is looked up before the arguments are
    evaluated; a logging call changes nothing the handler sees. *)
Definition logger (name : string) : M unit :=
  if bool_decide (name ∈ logger_methods) then mret ()
  else raise (AttributeError name).

(** Truth values: [if s], [if l]. *)
Definition truthy_str (s : option string) : bool :=
  match s with
  | Some s => negb (String.eqb s "")
  | None => false
  end.

Definition truthy_list {A} (l : list A) : bool :=
  match l with [] => false | _ => true end.

Section Service.

Variable E : env.

(** ** github_client.py *)

Definition ERROR_CODE : list (Z * string) :=
  [ (404, "REPO_NOT_FOUND"); (401, "GITHUB_TOKEN_INVALID");
    (403, "RATE_LIMIT_EXCEEDED"); (409, "EMPTY_GITHUB_REPO");
    (503, "SERVICE_UNAVAILABLE"); (500, "INTERNAL_SERVER_ERROR") ].

(** [ERROR_CODE.get(status_code, "UNKNOWN_ERROR")] *)
Fixpoint error_code_get (d : list (Z * string)) (status_code : Z) : string :=
  match d with
  | [] => "UNKNOWN_ERROR"
  | (k, v) :: rest => if k =? status_code then v else error_code_get rest status_code
  end.

Definition create_response (status_code : Z) (data : option data)
    (error_code : option string) : response :=
  if 400 <=? status_code then
    Response status_code
      (ErrorBody (if truthy_str error_code then default "" error_code
                  else error_code_get ERROR_CODE status_code) None)
  else
    Response status_code (DataBody data).

(** The four look-ups are modelled from their request on.  The headers
    ([_get_headers], with the cached token) are sent along with each
    request and are part of what the environment answers to; what
    [_get_headers] itself does, before the request, is modelled apart
    ([_get_credentials], [_get_headers] below). *)
Definition get_repo_metadata (owner repo : string) : M response :=
  response ← outside (GitHubRepo owner repo) (requests_get_repo E owner repo);
  mret
    match response with
    | Resp status_code response_data =>
        if negb (status_code =? 200) then create_response status_code None None
        else
          create_response 200
            (Some (MetadataDict
               {| md_name := rj_name response_data;
                  md_description := rj_description response_data;
                  md_stars := rj_stargazers_count response_data;
                  md_topics := default [] (rj_topics response_data);
                  md_default_branch := rj_default_branch response_data;
                  md_language := rj_language response_data;
                  md_html_url := rj_html_url response_data |}))
            None
    | Timeout => create_response 503 None (Some "REQUEST_TIMEOUT")
    | ConnectionError => create_response 503 None (Some "CONNECTION_ERROR")
    | RequestException => create_response 500 None None
    end.

Definition get_latest_commit_sha (owner repo : string)
    (default_branch : option string) : M response :=
  response ← outside (GitHubCommit owner repo default_branch)
               (requests_get_commit E owner repo default_branch);
  mret
    match response with
    | Resp status_code response_data =>
        if negb (status_code =? 200) then create_response status_code None None
        else
          create_response 200
            (Some (CommitDict [("latest_commit_sha", cj_sha response_data)]))
            None
    | Timeout => create_response 503 None (Some "REQUEST_TIMEOUT")
    | ConnectionError => create_response 503 None (Some "CONNECTION_ERROR")
    | RequestException => create_response 500 None None
    end.

Definition get_file_tree (owner repo : string) (branch : option string)
    : M response :=
  response ← outside (GitHubTree owner repo branch)
               (requests_get_tree E owner repo branch);
  mret
    match response with
    | Resp status_code response_data =>
        if negb (status_code =? 200) then create_response status_code None None
        else
          let tree := tj_tree response_data in
          let files :=
            (λ item, File (Some (ti_path item)) (Some (default 0 (ti_size item))))
              <$> filter (λ item, ti_type item = "blob") tree in
          create_response 200
            (Some (TreeDict files (tj_truncated response_data) (Py.len files)))
            None
    | Timeout => create_response 503 None (Some "REQUEST_TIMEOUT")
    | ConnectionError => create_response 503 None (Some "CONNECTION_ERROR")
    | RequestException => create_response 500 None None
    end.

Definition get_file_content (owner repo path : string) (max_size : Z)
    : M response :=
  response ← outside (GitHubContent owner repo path)
               (requests_get_content E owner repo path);
  mret
    match response with
    | Resp status_code content =>
        if negb (status_code =? 200) then create_response status_code None None
        else if Py.len_str content >? max_size then
          create_response 200
            (Some (ContentDict
               {| cd_path := path; cd_content := None;
                  cd_size := Py.len_str content; cd_skipped := true;
                  cd_reason := Some "FILE_TOO_LARGE" |}))
            None
        else
          create_response 200
            (Some (ContentDict
               {| cd_path := path; cd_content := Some content;
                  cd_size := Py.len_str content; cd_skipped := false;
                  cd_reason := None |}))
            None
    | Timeout => create_response 503 None (Some "REQUEST_TIMEOUT")
    | ConnectionError => create_response 503 None (Some "CONNECTION_ERROR")
    | RequestException => create_response 500 None None
    end.

(** The signature [get_file_content(owner, repo, path, max_size=100000)],
    called with keyword arguments. *)
Definition get_file_content_params : list string :=
  ["owner"; "repo"; "path"; "max_size"].

Definition call_get_file_content (kwargs : list (string * string))
    : M response :=
  check_keywords get_file_content_params kwargs;;
  owner ← keyword kwargs "owner";
  repo ← keyword kwargs "repo";
  path ← keyword kwargs "path";
  get_file_content owner repo path 100000.

(** ** gemini_client.py *)

(** The module that [from google import genai] (line 7) imports, the
    google-genai SDK, by the names it has: the API is reached through
    [genai.Client]; [configure] and [GenerativeModel] are names of the other
    SDK, [google.generativeai], and are not among them. *)
Definition genai_attributes : list string :=
  ["Client"; "types"; "errors"; "client"; "models"; "chats"; "files";
   "caches"; "batches"; "tunings"; "live"; "pagers"; "version"].

(** [genai.<name>]: a name the module does not have is an AttributeError. *)
Definition genai (name : string) : M unit :=
  if bool_decide (name ∈ genai_attributes) then mret ()
  else raise (AttributeError name).

(** [len(j)]: [None] stands for the TypeError of a value without length. *)
Definition json_len (j : json) : option Z :=
  match j with
  | JStr s => Some (Py.len_str s)
  | JList l => Some (Py.len l)
  | JDict d => Some (Py.len d)
  | _ => None
  end.

(** [for x in j]: the elements of a list, the keys of a dictionary, the
    characters of a string; [None] stands for the TypeError of a value that
    cannot be iterated. *)
Definition json_iter (j : json) : option (list json) :=
  match j with
  | JList l => Some l
  | JDict d => Some ((λ kv, JStr kv.1) <$> d)
  | JStr s => Some ((λ c, JStr (String c EmptyString)) <$> list_ascii_of_string s)
  | _ => None
  end.

(** [[file for file in files if file in file_tree]]: only a string can be
    equal to an element of [file_tree]. *)
Fixpoint valid_files_of (files : list json) (file_tree : list string)
    : list string :=
  match files with
  | [] => []
  | JStr file :: rest =>
      if bool_decide (file ∈ file_tree) then file :: valid_files_of rest file_tree
      else valid_files_of rest file_tree
  | _ :: rest => valid_files_of rest file_tree
  end.

(** [build_prompt], called before the [try]: the text it builds is part of
    what the environment answers to; what is modelled is how it can stop,
    [len(content)] on a content that is [None]. *)
Fixpoint build_prompt (file_contents : list (string * option string)) : M unit :=
  match file_contents with
  | [] => mret ()
  | (_, Some _) :: rest => build_prompt rest
  | (_, None) :: _ => raise (TypeError "object of type 'NoneType' has no len()")
  end.

Definition generate_suggestions (metadata : metadata) (file_tree : list string)
    (file_contents : list (string * option string)) : M response :=
  let api_key := api_key E in
  if negb (truthy_str api_key) then
    mret (Response 500 (ErrorBody "GEMINI_API_KEY_NOT_FOUND" None))
  else
    genai "configure";;
    genai "GenerativeModel";;
    build_prompt file_contents;;
    answer ← outside GeminiSuggest
               (generate_suggestion_list E metadata file_tree file_contents);
    mret
      match answer with
      | Parsed suggestions =>
          match json_len suggestions with
          | Some n => Response 200 (DataBody (Some (SuggestionDict suggestions n)))
          | None =>
              Response 500
                (ErrorBody "GEMINI_API_ERROR"
                   (Some "object has no len()"))
          end
      | JSONDecodeError =>
          Response 500 (ErrorBody "GEMINI_RESPONSE_PARSE_ERROR" None)
      | OtherException msg =>
          Response 500 (ErrorBody "GEMINI_API_ERROR" (Some msg))
      end.

Definition select_important_files (files : list file) (max_files : Z)
    : M (list string) :=
  let api_key := api_key E in
  if negb (truthy_str api_key) then mret []
  else
    let file_tree :=
      file_get_path <$> filter (λ f, truthy_str (file_path f) = true) files in
    genai "configure";;
    genai "GenerativeModel";;
    answer ← outside (GeminiSelect file_tree max_files)
               (generate_selection E file_tree max_files);
    mret
      match answer with
      | Parsed files =>
          match json_iter files with
          | Some files =>
              let valid_files := valid_files_of files file_tree in
              valid_files
          | None => []
          end
      | JSONDecodeError => []
      | OtherException _ => []
      end.

(** ** handler.py

    The body of [handler] is cut at the STEP comments of the source: each
    piece takes the locals it reads and gives back the locals it assigns.
    Logging calls other than the first one are left out or stand as
    [logger]: they name existing methods. *)

Definition CACHE_TTL_DAYS : Z := 7.
Definition MIN_FILES_THRESHOLD : Z := 5.

(** Lines 27-47. *)
Definition parse_github_url (github_url : string) : M (string * string) :=
  (* no assignment to the local [url] precedes line 38 *)
  let url : option string := None in
  url ← read_local "url" url;
  let url := Py.rstrip url "/" in
  let parts := Py.split url "/" in
  owner ← getitem_list parts (-2);
  repo ← getitem_list parts (-1);
  let repo := if Py.endswith repo ".git" then Py.drop_last repo 4 else repo in
  mret (owner, repo).

(** Lines 50-78: any exception of the look-up is caught and gives [None]. *)
Definition get_from_cache (cache_key commit_sha : string)
    : M (option cache_item) :=
  raised ← outside (CacheGet cache_key commit_sha) (get_item_raises E);
  if (raised : bool) then mret None
  else table_get (cache_key, commit_sha).

(** Lines 81-114: the item is put under (cache_key, commit_sha); its expiry
    is the time stamp of the first reading of the clock moved on by
    [CACHE_TTL_DAYS] days, its creation date the second reading; any
    exception is caught and gives [False]. *)
Definition save_to_cache (cache_key commit_sha : string) (analysis : analysis)
    (suggestions : json) : M bool :=
  let ttl := local_timestamp E (now_first E + CACHE_TTL_DAYS * 86400) in
  raised ← outside (CachePut cache_key commit_sha) (put_item_raises E);
  if (raised : bool) then mret false
  else
    table_put (cache_key, commit_sha)
      (CacheItem cache_key commit_sha analysis suggestions (now_second E) ttl);;
    mret true.

(** [response["body"]["data"]] *)
Definition body_data (r : response) : M (option data) :=
  match resp_body r with
  | DataBody d => mret d
  | ErrorBody _ _ => raise (KeyError "data")
  end.

Definition not_subscriptable {A} : M A :=
  raise (TypeError "'NoneType' object is not subscriptable").

Definition error_result (status_code : Z) (error_code : string) : result :=
  Status (Response status_code (ErrorBody error_code None)).

(** STEP 1 (lines 130-146): parse the input. *)
Definition step1_parse (event : event)
    : M (string * string * string * string) :=
  let github_url := github_url event in
  if negb (truthy_str github_url) then
    return_ (error_result 400 "MISSING_GITHUB_URL")
  else
    let github_url := default "" github_url in
    '(owner, repo) ← parse_github_url github_url;
    let cache_key := Py.lower owner +:+ "/" +:+ Py.lower repo in
    if negb (truthy_str (Some owner)) || negb (truthy_str (Some repo)) then
      return_ (error_result 400 "INVALID_GITHUB_URL")
    else
      mret (github_url, owner, repo, cache_key).

(** STEP 2 (lines 151-159): the repository metadata. *)
Definition step2_metadata (owner repo : string)
    : M (metadata * option string) :=
  metadata_response ← get_repo_metadata owner repo;
  if negb (statusCode metadata_response =? 200) then
    return_ (Status metadata_response)
  else
    data ← body_data metadata_response;
    match data with
    | Some (MetadataDict metadata) =>
        (* the key is always set: the default "main" is never taken *)
        let default_branch := md_default_branch metadata in
        mret (metadata, default_branch)
    | Some _ => raise (TypeError "not the metadata dictionary")
    | None => raise (AttributeError "get")
    end.

(** STEP 3 (lines 164-172): the latest commit. *)
Definition step3_commit (owner repo : string) (default_branch : option string)
    : M (option string) :=
  commit_response ← get_latest_commit_sha owner repo default_branch;
  if negb (statusCode commit_response =? 200) then
    logger "error";;
    mret None
  else
    data ← body_data commit_response;
    commit_sha ←
      match data with
      | Some (CommitDict d) => getitem_dict d "sha"
      | Some _ => raise (KeyError "sha")
      | None => not_subscriptable
      end;
    logger "info";;
    mret commit_sha.

(** STEP 4 (lines 178-187): the cache look-up. *)
Definition step4_cache (cache_key : string) (commit_sha : option string)
    : M unit :=
  if truthy_str commit_sha then
    cached ← get_from_cache cache_key (default "" commit_sha);
    match cached with
    | Some cached =>
        return_ (Payload (ci_analysis cached) (ci_suggestions cached) true)
    | None => mret ()
    end
  else mret ().

(** STEP 5 (lines 192-206): the file tree. *)
Definition step5_tree (owner repo : string) (default_branch : option string)
    : M (list file * Z) :=
  tree_response ← get_file_tree owner repo default_branch;
  if negb (statusCode tree_response =? 200) then
    return_ (Status tree_response)
  else
    data ← body_data tree_response;
    '(all_files, file_count) ←
      match data with
      | Some (TreeDict files _ file_count) => mret (files, file_count)
      | Some _ => raise (KeyError "files")
      | None => not_subscriptable
      end;
    if file_count =? 0 then return_ (error_result 400 "EMPTY_REPOSITORY")
    else mret (all_files, file_count).

(** STEP 6, first half (lines 211-229): rule-based selection, and the AI
    selection when the rules found fewer than [MIN_FILES_THRESHOLD]. *)
Definition step6_hybrid (all_files : list file) : M (list string * string) :=
  let high_value_files := get_high_value_files all_files 10 in
  let selection_method := "rule-based" in
  if Py.len high_value_files <? MIN_FILES_THRESHOLD then
    ai_selected ← select_important_files all_files 10;
    if truthy_list ai_selected then
      let combined :=
        Py.slice_to (set_order E (high_value_files ++ ai_selected)) 10 in
      if Py.len combined >? Py.len high_value_files then
        mret (combined, "hybrid")
      else
        mret (high_value_files, selection_method)
    else mret (high_value_files, selection_method)
  else mret (high_value_files, selection_method).

Definition fallback_extensions : list string :=
  [".py"; ".js"; ".ts"; ".java"; ".go"; ".rs"; ".cpp"; ".c"].

(** [f["path"]] *)
Definition file_getitem_path (f : file) : M string :=
  match file_path f with
  | Some path => mret path
  | None => raise (KeyError "path")
  end.

(** The list comprehension of lines 234-237, before the slice. *)
Fixpoint fallback_candidates (all_files : list file) : M (list string) :=
  match all_files with
  | [] => mret []
  | f :: rest =>
      path ← file_getitem_path f;
      tail ← fallback_candidates rest;
      if existsb (Py.endswith path) fallback_extensions
      then mret (path :: tail) else mret tail
  end.

(** STEP 6, second half (lines 231-248): the fallback by extension.  The
    local [fallback_files] is assigned in the body of the first [if] only. *)
Definition step6_fallback (all_files : list file) (file_count : Z)
    (high_value_files : list string) (selection_method : string)
    : M (list string * string) :=
  fallback_files ←
    (if (Py.len high_value_files =? 0) && (file_count >? 0) then
       candidates ← fallback_candidates all_files;
       mret (Some (Py.slice_to candidates 5))
     else mret None);
  fallback_files ← read_local "fallback_files" fallback_files;
  let '(high_value_files, selection_method) :=
    if truthy_list fallback_files then (fallback_files, "fallback")
    else (high_value_files, selection_method) in
  if Py.len high_value_files =? 0 then
    return_ (error_result 400 "NO_ANALYZABLE_FILES")
  else mret (high_value_files, selection_method).

(** The loop of STEP 7 (lines 255-266). *)
Fixpoint fetch_loop (owner repo : string) (high_value_files : list string)
    (file_contents : list (string * option string))
    : M (list (string * option string)) :=
  match high_value_files with
  | [] => mret file_contents
  | file_path :: rest =>
      content_response ←
        call_get_file_content
          [("owner", owner); ("repo", repo); ("file_path", file_path)];
      file_contents ←
        (if statusCode content_response =? 200 then
           data ← body_data content_response;
           match data with
           | Some (ContentDict data) =>
               if negb (cd_skipped data) then
                 mret (setitem_dict file_contents file_path (cd_content data))
               else mret file_contents
           | Some _ => raise (KeyError "content")
           | None => raise (AttributeError "get")
           end
         else mret file_contents);
      fetch_loop owner repo rest file_contents
  end.

(** STEP 7 (lines 253-274): the contents of the selected files. *)
Definition step7_contents (owner repo : string) (high_value_files : list string)
    : M (list (string * option string)) :=
  let file_contents := [] in
  file_contents ← fetch_loop owner repo high_value_files file_contents;
  if Py.len file_contents =? 0 then
    return_ (error_result 400 "NO_FILE_CONTENT_FETCHED")
  else mret file_contents.

(** [[f["path"] for f in all_files]] *)
Fixpoint tree_paths (all_files : list file) : M (list string) :=
  match all_files with
  | [] => mret []
  | f :: rest =>
      path ← file_getitem_path f;
      tail ← tree_paths rest;
      mret (path :: tail)
  end.

(** STEP 8 (lines 279-292): the suggestions. *)
Definition step8_suggestions (metadata : metadata) (all_files : list file)
    (file_contents : list (string * option string)) : M json :=
  file_tree_paths ← tree_paths all_files;
  gemini_response ← generate_suggestions metadata file_tree_paths file_contents;
  if negb (statusCode gemini_response =? 200) then
    return_ (Status gemini_response)
  else
    data ← body_data gemini_response;
    match data with
    | Some (SuggestionDict suggestions _) => mret suggestions
    | Some _ => raise (KeyError "suggestions")
    | None => not_subscriptable
    end.

(** STEP 9 (lines 297-308): the analysis object. *)
Definition step9_analysis (metadata : metadata) (default_branch : option string)
    (file_count : Z) (file_contents : list (string * option string))
    (selection_method : string) : analysis :=
  {| repo_name := md_name metadata;
     description := md_description metadata;
     language := md_language metadata;
     stars := md_stars metadata;
     topics := md_topics metadata;
     html_url := md_html_url metadata;
     default_branch := default_branch;
     file_count := file_count;
     files_analyzed := fst <$> file_contents;
     selection_method := selection_method |}.

(** STEP 10 (lines 313-314): the cache write. *)
Definition step10_save (github_url : string) (commit_sha : option string)
    (analysis : analysis) (suggestions : json) : M unit :=
  if truthy_str commit_sha then
    save_to_cache github_url (default "" commit_sha) analysis suggestions;;
    mret ()
  else mret ().

(** Steps 1 to 11 in sequence (lines 130-323). *)
Definition handler_steps (event : event) : M result :=
  '(github_url, owner, repo, cache_key) ← step1_parse event;
  '(metadata, default_branch) ← step2_metadata owner repo;
  commit_sha ← step3_commit owner repo default_branch;
  step4_cache cache_key commit_sha;;
  '(all_files, file_count) ← step5_tree owner repo default_branch;
  '(high_value_files, selection_method) ← step6_hybrid all_files;
  '(high_value_files, selection_method) ←
    step6_fallback all_files file_count high_value_files selection_method;
  file_contents ← step7_contents owner repo high_value_files;
  suggestions ← step8_suggestions metadata all_files file_contents;
  let analysis :=
    step9_analysis metadata default_branch file_count file_contents
      selection_method in
  step10_save github_url commit_sha analysis suggestions;;
  return_ (Payload analysis suggestions false).

(** [handler(event, context)]: line 124, then the steps. *)
Definition handler (event : event) : M result :=
  logger "loggin";;
  handler_steps event.

End Service.

(** ** Sample environments and values *)

(** An environment in which nothing answers: every request times out, no
    API key is set, the cache fails. *)
Definition silent_env : env :=
  {| requests_get_repo := λ _ _, Timeout;
     requests_get_commit := λ _ _ _, Timeout;
     requests_get_tree := λ _ _ _, Timeout;
     requests_get_content := λ _ _ _, Timeout;
     api_key := None;
     generate_selection := λ _ _, JSONDecodeError;
     generate_suggestion_list := λ _ _ _, JSONDecodeError;
     get_item_raises := true;
     put_item_raises := true;
     now_first := 0;
     now_second := 0;
     local_timestamp := λ t, t;
     set_order := remove_dups |}.

Definition empty_world : world := World ∅ [].

(** A text of 100,001 characters. *)
Definition long_text : string :=
  string_of_list_ascii (repeat "a"%char (Z.to_nat 100001)).

(** The repository acme/widgets of the end-to-end scenarios: every look-up
    answers 200, the file [big.py] is longer than the content cap, the model
    selects one path of the tree and one that is not in it, and the cache
    works. *)
Definition acme_tree : list tree_item :=
  [ TreeItem "package.json" "blob" (Some 500);
    TreeItem "src" "tree" None;
    TreeItem "src/index.js" "blob" (Some 1200);
    TreeItem "node_modules/x.js" "blob" (Some 900) ].

Definition acme_env : env :=
  {| requests_get_repo := λ _ _,
       Resp 200 (RepoJson (Some "widgets") None (Some 3) None (Some "main")
                   (Some "JavaScript") (Some "https://github.com/acme/widgets"));
     requests_get_commit := λ _ _ _, Resp 200 (CommitJson (Some "abc123"));
     requests_get_tree := λ _ _ _, Resp 200 (TreeJson acme_tree false);
     requests_get_content := λ _ _ path,
       if String.eqb path "big.py" then Resp 200 long_text
       else Resp 200 "{}";
     api_key := Some "key";
     generate_selection := λ _ _,
       Parsed (JList [JStr "node_modules/x.js"; JStr "docs/ghost.md"]);
     generate_suggestion_list := λ _ _ _,
       Parsed (JList [JDict [("title", JStr "Project Introduction")]]);
     get_item_raises := false;
     put_item_raises := false;
     now_first := 1700000000;
     now_second := 1700000001;
     local_timestamp := λ t, t;
     set_order := remove_dups |}.

(** The files of that tree as [get_file_tree] lists them. *)
Definition acme_files : list file :=
  [ File (Some "package.json") (Some 500);
    File (Some "src/index.js") (Some 1200);
    File (Some "node_modules/x.js") (Some 900) ].


(** A tree in which the rules find five files. *)
Definition five_files : list file :=
  [ File (Some "package.json") (Some 500);
    File (Some "README.md") (Some 2000);
    File (Some "main.py") (Some 800);
    File (Some "app.py") (Some 700);
    File (Some "Dockerfile") (Some 300) ].

Definition sample_analysis : analysis :=
  {| repo_name := Some "widgets"; description := None;
     language := Some "JavaScript"; stars := Some 3; topics := [];
     html_url := Some "https://github.com/acme/widgets";
     default_branch := Some "main"; file_count := 3;
     files_analyzed := ["package.json"; "src/index.js"];
     selection_method := "rule-based" |}.

Definition sample_suggestions : json :=
  JList [JDict [("title", JStr "Project Introduction")]].

(** Unfolding the monad. *)
Ltac run :=
  unfold mbind, M_bind, mret, M_ret, outside, raise, return_, table_get,
    table_put; simpl.


(** ** Credentials

    [_get_credentials] and [_get_headers] of [github_client.py] (lines 19-83
    and 110-125), [get_api_key] of [gemini_client.py] (lines 9-68).  Each
    client keeps its credential in a module-level variable. *)

(** What a process sees of its surroundings when it resolves a credential. *)
Record surroundings := Surroundings {
  (** ["AWS_LAMBDA_RUNTIME_API" in os.environ] *)
  on_aws : bool;
  (** [os.environ.get(name)], after [load_dotenv()] where the code calls it *)
  environ : string → option string;
  (** [ssm_client.get_parameter(Name=name, WithDecryption=True)]: the value
      of the parameter, or [None] for a ClientError *)
  ssm_get_parameter : string → option string;
  (** whether [from dotenv import load_dotenv] succeeds *)
  dotenv_installed : bool }.

(** The module-level variable of a client ([_github_token],
    [_gemini_api_key]) and the parameter names it has asked of SSM, latest
    first. *)
Record process := Process {
  cached : option string;
  ssm_requests : list string }.

Definition _is_running_on_aws (S : surroundings) : bool := on_aws S.

Definition _get_credentials (S : surroundings) (p : process)
    : option string * process :=
  match cached p with
  | Some _github_token => (Some _github_token, p)
  | None =>
      let is_aws := _is_running_on_aws S in
      if is_aws then
        let github_param_name := environ S "GITHUB_PARAM_NAME" in
        if negb (truthy_str github_param_name) then (None, p)
        else
          let github_param_name := default "" github_param_name in
          let p := Process (cached p) (github_param_name :: ssm_requests p) in
          match ssm_get_parameter S github_param_name with
          | Some value => (Some value, Process (Some value) (ssm_requests p))
          | None => (None, p)
          end
      else
        if dotenv_installed S then
          let _github_token := environ S "GITHUB_TOKEN" in
          (_github_token, Process _github_token (ssm_requests p))
        else (None, p)
  end.

Definition _get_headers (S : surroundings) (p : process)
    : list (string * string) * process :=
  let headers :=
    [ ("Accept", "application/vnd.github+json");
      ("User-Agent", "AI-Demo-Builder");
      ("X-GitHub-Api-Version", "2022-11-28") ] in
  let '(token, p) := _get_credentials S p in
  if truthy_str token then
    (setitem_dict headers "Authorization" ("Bearer " +:+ default "" token), p)
  else (headers, p).

Definition is_running_on_aws (S : surroundings) : bool := on_aws S.

Definition get_api_key (S : surroundings) (p : process)
    : option string * process :=
  match cached p with
  | Some _gemini_api_key => (Some _gemini_api_key, p)
  | None =>
      if is_running_on_aws S then
        let api_key_param_name := environ S "GEMINI_PARAM_NAME" in
        if negb (truthy_str api_key_param_name) then (None, p)
        else
          let gemini_param_name := default "" (environ S "GEMINI_PARAM_NAME") in
          let p := Process (cached p) (gemini_param_name :: ssm_requests p) in
          match ssm_get_parameter S gemini_param_name with
          | Some value => (Some value, Process (Some value) (ssm_requests p))
          | None => (None, p)
          end
      else
        if dotenv_installed S then
          let _gemini_api_key := environ S "GEMINI_API_KEY" in
          (_gemini_api_key, Process _gemini_api_key (ssm_requests p))
        else (None, p)
  end.

(** ** The texts of gemini_client.py *)

Module PyStr.

(** The line feed. *)
Definition nl : string := String "010"%char EmptyString.

(** [c.isspace()] for the characters below 128: tab to carriage return, the
    four separators 28 to 31, and the space. *)
Definition isspace (c : ascii) : bool :=
  let n := nat_of_ascii c in
  ((9 <=? n)%nat && (n <=? 13)%nat) || ((28 <=? n)%nat && (n <=? 32)%nat).

(** [s.lstrip()] *)
Fixpoint lstrip (s : string) : string :=
  match s with
  | EmptyString => EmptyString
  | String c s' => if isspace c then lstrip s' else s
  end.

(** [s.rstrip()] *)
Fixpoint rstrip (s : string) : string :=
  match s with
  | EmptyString => EmptyString
  | String c s' =>
      match rstrip s' with
      | EmptyString => if isspace c then EmptyString else String c EmptyString
      | r => String c r
      end
  end.

(** [s.strip()] *)
Definition strip (s : string) : string := rstrip (lstrip s).

(** [s[n:]] *)
Fixpoint drop_first (s : string) (n : nat) : string :=
  match n, s with
  | O, _ => s
  | S n', String _ s' => drop_first s' n'
  | S _, EmptyString => EmptyString
  end.

(** [s[:n]] for [n >= 0] *)
Fixpoint take_first (s : string) (n : nat) : string :=
  match n, s with
  | S n', String c s' => String c (take_first s' n')
  | _, _ => EmptyString
  end.

(** [sep.join(l)] *)
Definition join (sep : string) (l : list string) : string :=
  String.concat sep l.

(** [str(n)] for an integer. *)
Definition str (n : Z) : string := pretty n.

End PyStr.

(** The clean-up of the answer of the model (lines 192-200, and the same at
    lines 278-287): surrounding white space and a Markdown code fence are
    taken off. *)
Definition clean_response_text (response_text : string) : string :=
  let response_text := PyStr.strip response_text in
  let response_text :=
    if String.prefix "```json" response_text
    then PyStr.drop_first response_text 7 else response_text in
  let response_text :=
    if String.prefix "```" response_text
    then PyStr.drop_first response_text 3 else response_text in
  let response_text :=
    if Py.endswith response_text "```"
    then Py.drop_last response_text 3 else response_text in
  PyStr.strip response_text.

(** [tree_str] of [build_prompt] (lines 84-86). *)
Definition prompt_tree_str (file_tree : list string) : string :=
  let tree_str := PyStr.join PyStr.nl (take 100 file_tree) in
  if Py.len_str tree_str >? 100 then
    tree_str +:+ PyStr.nl +:+ "... and "
      +:+ PyStr.str (Py.len file_tree - 100) +:+ " more files"
  else tree_str.

(** The content of one file as [build_prompt] shows it (lines 92-93). *)
Definition prompt_content (content : string) : string :=
  if Py.len_str content >? 5000
  then PyStr.take_first content 5000 +:+ PyStr.nl +:+ "... (truncated)"
  else content.

(** ** Words for the statements below *)

(** What a look-up of [github_client.py] answers when the request did not
    give a 200: [create_response] of the status, or of the [except] clause
    that catches the exception. *)
Definition failure_response {A} (h : http A) : option response :=
  match h with
  | Resp status_code _ =>
      if status_code =? 200 then None
      else Some (create_response status_code None None)
  | Timeout => Some (create_response 503 None (Some "REQUEST_TIMEOUT"))
  | ConnectionError => Some (create_response 503 None (Some "CONNECTION_ERROR"))
  | RequestException => Some (create_response 500 None None)
  end.

(** The error code of a status when none is given: the one of the table
    of lines 10-17, and UNKNOWN_ERROR for any other status. *)
Definition expected_error_code (status_code : Z) : string :=
  if decide (status_code = 404) then "REPO_NOT_FOUND"
  else if decide (status_code = 401) then "GITHUB_TOKEN_INVALID"
  else if decide (status_code = 403) then "RATE_LIMIT_EXCEEDED"
  else if decide (status_code = 409) then "EMPTY_GITHUB_REPO"
  else if decide (status_code = 503) then "SERVICE_UNAVAILABLE"
  else if decide (status_code = 500) then "INTERNAL_SERVER_ERROR"
  else "UNKNOWN_ERROR".

(** The string of a JSON value that is one. *)
Definition json_string (j : json) : option string :=
  match j with JStr s => Some s | _ => None end.

(** One more call seen outside. *)
Definition called (c : call) (w : world) : world :=
  World (cache_table w) (c :: calls w).

(** The file name [score_file] looks up: the last segment of the lower-cased
    path. *)
Definition filename_of (path : string) : string :=
  default "" (Py.index (Py.split (Py.lower path) "/") (-1)).

(** The scored entries that are not excluded, in input order. *)
Definition kept (files : list file) : list scored :=
  filter (λ x, 0 ≤ scored_score x) (score_all files).
(** * Properties

    ** The file scorer *)

Example score_manifest : score_file "package.json" 500 = 105.
Proof. reflexivity. Qed.

Example score_nested : score_file "app/src/api/Index.JS" 10 = 130.
Proof. reflexivity. Qed.

Example score_dependency : score_file "node_modules/x.js" 900 = -1.
Proof. reflexivity. Qed.

Example score_trailing_newline :
  score_file ("logo.png" +:+ String "010"%char EmptyString) 10 = -1.
Proof. reflexivity. Qed.

Example top_two :
  get_high_value_files
    [ File (Some "src/index.js") (Some 1200);
      File (Some "node_modules/x.js") (Some 900);
      File (Some "package.json") (Some 500);
      File (Some "a.txt") (Some 1); File (Some "b.txt") (Some 1) ] 3
  = ["package.json"; "src/index.js"; "a.txt"].
Proof. reflexivity. Qed.


Section StringFacts.

Lemma split_nonempty s sep : Py.split s sep ≠ [].
Proof.
  induction s as [|c s IH]; simpl; [done|].
  destruct (Ascii.eqb c sep); [done|].
  destruct (Py.split s sep); done.
Qed.

Lemma index_last {A} (l : list A) : Py.index l (-1) = last l.
Proof.
  unfold Py.index. simpl.
  destruct l as [|a l]; [done|].
  case_match eqn:E; [|apply Z.leb_gt in E; simpl in E; lia].
  rewrite last_lookup. f_equal. simpl. lia.
Qed.

Lemma count_nonneg s c : 0 ≤ Py.count s c.
Proof. induction s as [|d s IH]; simpl; [done|]. destruct (Ascii.eqb d c); lia. Qed.

Lemma split_length s sep :
  Z.of_nat (length (Py.split s sep)) = Py.count s sep + 1.
Proof.
  induction s as [|c s IH]; simpl; [done|].
  pose proof (split_nonempty s sep).
  destruct (Ascii.eqb c sep); simpl; [lia|].
  destruct (Py.split s sep); [done|]. simpl in *. lia.
Qed.

Lemma split_single s sep h : Py.split s sep = [h] → s = h.
Proof.
  revert h. induction s as [|c s IH]; simpl; intros h Hsp; [congruence|].
  pose proof (split_nonempty s sep).
  destruct (Ascii.eqb c sep).
  - destruct (Py.split s sep); congruence.
  - destruct (Py.split s sep) as [|h0 t]; [done|].
    injection Hsp as <- ->. f_equal. by apply IH.
Qed.

(** The last element of [s.split("/")] is the part of [s] after its last
    [/]: it holds no [/], and [s] is this part or some directory, [/] and
    this part. *)
Lemma split_last s :
  ∃ seg, last (Py.split s "/") = Some seg ∧ Py.count seg "/" = 0 ∧
         (s = seg ∨ ∃ dir, s = dir +:+ "/" +:+ seg).
Proof.
  induction s as [|c s (seg & Hl & Hc & Hs)]; simpl.
  { exists EmptyString. eauto. }
  pose proof (split_nonempty s "/") as Hne.
  pose proof (split_length s "/") as Hlen.
  destruct (Ascii.eqb c "/") eqn:E.
  - apply Ascii.eqb_eq in E as ->.
    destruct (Py.split s "/") as [|h t] eqn:Hsp; [done|].
    exists seg. split; [done|]. split; [done|]. right.
    destruct Hs as [->|[dir ->]].
    + by exists EmptyString.
    + by exists (String "/" dir).
  - destruct (Py.split s "/") as [|h [|h' t]] eqn:Hsp; [done| |].
    + simpl in Hl. injection Hl as ->.
      apply split_single in Hsp as ->.
      exists (String c seg). split; [done|]. split; [|by left].
      simpl. by rewrite E.
    + exists seg. split; [done|]. split; [done|]. right.
      destruct Hs as [->|[dir ->]].
      * simpl in Hlen. lia.
      * by exists (String c dir).
Qed.

End StringFacts.

Section ScoreFacts.

Lemma skip_loop_true patterns s :
  skip_loop patterns s = true ↔ ∃ p, p ∈ patterns ∧ Py.search p s = true.
Proof.
  induction patterns as [|p ps IH]; simpl.
  - split; [done|]. intros (p & Hp & _). by apply elem_of_nil in Hp.
  - destruct (Py.search p s) eqn:E.
    + split; [|done]. intros _. exists p. split; [left|done].
    + rewrite IH. split; intros (q & Hq & Hs).
      * exists q. split; [by right|done].
      * apply elem_of_cons in Hq as [->|Hq]; [congruence|eauto].
Qed.

Lemma dict_get_Some d k v : dict_get d k = Some v → (k, v) ∈ d.
Proof.
  induction d as [|[k' v'] d IH]; simpl; [done|].
  destruct (String.eqb k' k) eqn:E.
  - apply String.eqb_eq in E as ->. intros [= ->]. left.
  - intros H. right. by apply IH.
Qed.

Lemma dict_get_None d k : dict_get d k = None → k ∉ fst <$> d.
Proof.
  induction d as [|[k' v'] d IH]; simpl.
  - intros _ H. by apply elem_of_nil in H.
  - destruct (String.eqb k' k) eqn:E; [done|].
    apply String.eqb_neq in E. intros H Hin.
    apply elem_of_cons in Hin as [->|Hin]; [done|by apply IH].
Qed.

Lemma path_bonus_loop_first patterns s score :
  ∃ pb, path_bonus_loop patterns s score = score + pb ∧
    ((∃ pre p post, patterns = pre ++ (p, pb) :: post ∧
        Py.search p s = true ∧
        Forall (λ q, Py.search q.1 s = false) pre) ∨
     (Forall (λ q, Py.search q.1 s = false) patterns ∧ pb = 0)).
Proof.
  induction patterns as [|[p b] ps (pb & Heq & Hfirst)]; simpl.
  - exists 0. split; [lia|]. right. by split.
  - destruct (Py.search p s) eqn:E.
    + exists b. split; [done|]. left. by exists [], p, ps.
    + exists pb. split; [done|].
      destruct Hfirst as [(pre & q & post & -> & Hq & Hpre)|[Hall ->]].
      * left. exists ((p, b) :: pre), q, post.
        split; [done|]. split; [done|]. by constructor.
      * right. split; [|done]. by constructor.
Qed.

Lemma FILE_SCORES_nonneg : Forall (λ kv, 0 ≤ kv.2) FILE_SCORES.
Proof. unfold FILE_SCORES. repeat constructor; simpl; lia. Qed.

Lemma PATH_PATTERNS_nonneg : Forall (λ kv, 0 ≤ kv.2) PATH_PATTERNS.
Proof. unfold PATH_PATTERNS. repeat constructor; simpl; lia. Qed.

End ScoreFacts.

(** C5. For every path and size, [score_file] returns -1 when the path
    matches a skip pattern or the size exceeds 500,000 (before any bonus is
    looked at); otherwise it returns a score of at least 0, the sum of the
    priority-table bonus of the file name, the bonus of the first matching
    path pattern (at most one), and +5 when the path holds at most one [/]. *)
Theorem score_file_contract (path : string) (size : Z) :
  (ScoreSpec.matches_skip_rule path ∨ 500000 < size →
   score_file path size = -1) ∧
  (¬ (ScoreSpec.matches_skip_rule path ∨ 500000 < size) →
   ∃ fb pb db,
     score_file path size = fb + pb + db ∧
     0 ≤ score_file path size ∧
     ScoreSpec.filename_bonus path fb ∧
     ScoreSpec.first_pattern_bonus path pb ∧
     ScoreSpec.depth_bonus path db).
Proof.
  unfold score_file, should_skip, ScoreSpec.matches_skip_rule.
  destruct (skip_loop SKIP_PATTERNS (Py.lower path)) eqn:Hskip.
  { split; [done|]. intros []. left. by apply skip_loop_true. }
  destruct (Z.gtb_spec size 500000) as [Hsize|Hsize].
  { split; [done|]. intros []. by right. }
  split.
  { intros [Hm|Hs].
    - apply skip_loop_true in Hm. congruence.
    - lia. }
  intros _.
  rewrite index_last.
  destruct (split_last (Py.lower path)) as (seg & -> & Hseg). simpl default.
  set (fb := match dict_get FILE_SCORES seg with Some v => 0 + v | None => 0 end).
  destruct (path_bonus_loop_first PATH_PATTERNS (Py.lower path) fb)
    as (pb & -> & Hpb).
  set (db := if Py.count path "/" <=? 1 then 5 else 0).
  assert (Hfb : 0 ≤ fb ∧ ((seg, fb) ∈ FILE_SCORES ∨ (¬ (seg ∈ fst <$> FILE_SCORES) ∧ fb = 0))).
  { subst fb. destruct (dict_get FILE_SCORES seg) as [v|] eqn:Hget.
    - apply dict_get_Some in Hget. split; [|by left].
      pose proof FILE_SCORES_nonneg as Hall.
      rewrite Forall_forall in Hall. apply Hall in Hget. simpl in Hget. lia.
    - apply dict_get_None in Hget. split; [lia|by right]. }
  assert (Hpb0 : 0 ≤ pb).
  { destruct Hpb as [(pre & p & post & Heq & _)|[_ ->]]; [|lia].
    pose proof PATH_PATTERNS_nonneg as Hall. rewrite Heq in Hall.
    apply Forall_app in Hall as [_ Hall]. by inversion Hall. }
  assert (Hdb : 0 ≤ db ∧ ScoreSpec.depth_bonus path db).
  { subst db. unfold ScoreSpec.depth_bonus.
    destruct (Py.count path "/" <=? 1) eqn:E.
    - apply Z.leb_le in E. split; [lia|by left].
    - apply Z.leb_gt in E. split; [lia|by right]. }
  exists fb, pb, db.
  assert ((if Py.count path "/" <=? 1 then fb + pb + 5 else fb + pb)
          = fb + pb + db) as ->.
  { subst db. by destruct (Py.count path "/" <=? 1); lia. }
  split; [done|]. split; [lia|]. split; [|by split; [|apply Hdb]].
  exists seg. split; [done|]. apply Hfb.
Qed.

Lemma score_file_contract_witness :
  score_file "node_modules/x.js" 900 = -1 ∧ score_file "big.py" 500001 = -1.
Proof.
  split.
  - apply (proj1 (score_file_contract "node_modules/x.js" 900)).
    left. exists (Py.Lit "node_modules/"). split; [left|reflexivity].
  - apply (proj1 (score_file_contract "big.py" 500001)). right. lia.
Defined.

(** ** Properties of the top selection *)

Section SortFacts.

Lemma score_loop_filter files :
  score_loop files = filter (λ x, 0 ≤ scored_score x) (score_all files).
Proof.
  induction files as [|f fs IH]; [done|].
  simpl. fold (file_score f). rewrite filter_cons. simpl.
  destruct (Z.leb_spec 0 (file_score f)); case_decide; try lia; by rewrite IH.
Qed.

Lemma insert_desc_perm x l : insert_desc x l ≡ₚ x :: l.
Proof.
  induction l as [|y l IH]; simpl; [done|].
  destruct (scored_score y <=? scored_score x); [done|].
  rewrite IH. apply Permutation_swap.
Qed.

Lemma sort_desc_perm l : sort_desc l ≡ₚ l.
Proof.
  induction l as [|x l IH]; simpl; [done|].
  by rewrite insert_desc_perm, IH.
Qed.

Lemma insert_desc_sorted x l :
  StronglySorted score_ge l → StronglySorted score_ge (insert_desc x l).
Proof.
  induction 1 as [|y l Hs IH Hy]; simpl.
  - repeat constructor.
  - destruct (Z.leb_spec (scored_score y) (scored_score x)) as [Hle|Hlt].
    + constructor; [by constructor|].
      constructor; [done|].
      eapply Forall_impl; [exact Hy|]. unfold score_ge. intros; lia.
    + constructor; [done|].
      rewrite insert_desc_perm. constructor; [|done].
      unfold score_ge. lia.
Qed.

Lemma sort_desc_sorted l : StronglySorted score_ge (sort_desc l).
Proof.
  induction l as [|x l IH]; simpl; [constructor|].
  by apply insert_desc_sorted.
Qed.







End SortFacts.




(** ** The handler *)

(** C1 fails on the code: for every event and every environment, [handler]
    raises on its first statement, line 124: a Logger has no attribute
    [loggin]. *)
Theorem handler_raises_AttributeError (E : env) (event : event) (w : world) :
  handler E event w = (Raised (AttributeError "loggin"), w).
Proof. reflexivity. Qed.

(** Past line 124, a non-empty URL does not get further than line 38 of
    [parse_github_url], which reads the local [url] before any assignment. *)
Lemma parse_github_url_raises (github_url : string) (w : world) :
  parse_github_url github_url w = (Raised (UnboundLocalError "url"), w).
Proof. reflexivity. Qed.

Lemma step1_parse_raises (url : string) (w : world) :
  url ≠ "" →
  step1_parse (Event (Some url)) w = (Raised (UnboundLocalError "url"), w).
Proof.
  intros Hne. unfold step1_parse. simpl.
  destruct (String.eqb_spec url ""); [done|]. reflexivity.
Qed.

Lemma handler_steps_raises (E : env) (url : string) (w : world) :
  url ≠ "" →
  handler_steps E (Event (Some url)) w = (Raised (UnboundLocalError "url"), w).
Proof.
  intros Hne. unfold handler_steps, mbind, M_bind.
  by rewrite step1_parse_raises.
Qed.

(** A collaborator's failure is passed on as it is: the metadata look-up that
    times out ends step 2 with its 503. *)
Example step2_metadata_timeout :
  step2_metadata silent_env "acme" "widgets" empty_world
  = (Returned (error_result 503 "REQUEST_TIMEOUT"),
     World ∅ [GitHubRepo "acme" "widgets"]).
Proof. reflexivity. Qed.

(** End-to-end scenario B: a tree without files ends step 5 with
    EMPTY_REPOSITORY. *)
Example step5_tree_empty (E : env) (owner repo : string)
    (branch : option string) (w : world) :
  requests_get_tree E owner repo branch = Resp 200 (TreeJson [] false) →
  (step5_tree E owner repo branch w).1
  = Returned (error_result 400 "EMPTY_REPOSITORY").
Proof.
  intros Hreq. unfold step5_tree, get_file_tree. run. by rewrite Hreq.
Qed.

(** ** Commit resolution and the cache (steps 3, 4 and 10) *)

(** The first half of C3 holds on the code: when the commit look-up fails,
    step 3 leaves [commit_sha = None] ... *)
Lemma step3_commit_failure (E : env) (owner repo : string)
    (branch : option string) (w : world) :
  (∀ cj, requests_get_commit E owner repo branch ≠ Resp 200 cj) →
  step3_commit E owner repo branch w
  = (Normal None,
     World (cache_table w) (GitHubCommit owner repo branch :: calls w)).
Proof.
  intros Hfail. unfold step3_commit, get_latest_commit_sha. run.
  destruct (requests_get_commit E owner repo branch) as [status cj| | |] eqn:Hreq;
    try reflexivity.
  destruct (Z.eqb_spec status 200) as [->|Hne]; [by destruct (Hfail cj)|].
  simpl. unfold create_response.
  destruct (400 <=? status); simpl;
    by destruct (Z.eqb_spec status 200).
Qed.

Example step3_commit_timeout :
  step3_commit silent_env "acme" "widgets" (Some "main") empty_world
  = (Normal None, World ∅ [GitHubCommit "acme" "widgets" (Some "main")]).
Proof. reflexivity. Qed.

(** ... and with [commit_sha = None] the cache is neither read (step 4) nor
    written (step 10), and the pay-load of step 11 has [from_cache = False]. *)
Lemma no_commit_no_cache (E : env) (cache_key github_url : string)
    (a : analysis) (s : json) (w : world) :
  step4_cache E cache_key None w = (Normal (), w) ∧
  step10_save E github_url None a s w = (Normal (), w).
Proof. done. Qed.

(** C3 fails on the code: when the commit look-up succeeds, the response of
    [get_latest_commit_sha] carries the identifier under the key
    ["latest_commit_sha"], and line 171 of the handler reads the key ["sha"]:
    step 3 raises KeyError. *)
Theorem step3_commit_success_raises (E : env) (owner repo : string)
    (branch : option string) (cj : commit_json) (w : world) :
  requests_get_commit E owner repo branch = Resp 200 cj →
  step3_commit E owner repo branch w
  = (Raised (KeyError "sha"),
     World (cache_table w) (GitHubCommit owner repo branch :: calls w)).
Proof.
  intros Hreq. unfold step3_commit, get_latest_commit_sha. run.
  by rewrite Hreq.
Qed.

Lemma step3_commit_success_raises_witness :
  step3_commit acme_env "acme" "widgets" (Some "main") empty_world
  = (Raised (KeyError "sha"),
     World ∅ [GitHubCommit "acme" "widgets" (Some "main")]).
Proof.
  apply (step3_commit_success_raises acme_env "acme" "widgets" (Some "main")
           (CommitJson (Some "abc123")) empty_world).
  reflexivity.
Defined.

(** The write of step 10 goes to the key (github_url, commit_sha); the
    look-up of step 4 reads the key (cache_key, commit_sha).  When the two
    strings differ, the look-up after the write finds what was there
    before. *)
Lemma save_then_lookup (E : env) (github_url cache_key sha : string)
    (a : analysis) (s : json) (w : world) :
  sha ≠ "" → put_item_raises E = false → get_item_raises E = false →
  github_url ≠ cache_key →
  ∃ w1 w2,
    step10_save E github_url (Some sha) a s w = (Normal (), w1) ∧
    cache_table w1 !! (github_url, sha)
      = Some (CacheItem github_url sha a s (now_second E)
                (local_timestamp E (now_first E + CACHE_TTL_DAYS * 86400))) ∧
    get_from_cache E cache_key sha w1
      = (Normal (cache_table w !! (cache_key, sha)), w2).
Proof.
  intros Hsha Hput Hget Hne.
  unfold step10_save, save_to_cache, get_from_cache. run.
  destruct (String.eqb_spec sha ""); [done|]. simpl.
  rewrite Hput, Hget. simpl.
  eexists _, _. split; [done|]. simpl. split.
  - apply lookup_insert_eq.
  - f_equal. f_equal. apply lookup_insert_ne. congruence.
Qed.

(** C2 fails on the code: step 10 passes [github_url], not [cache_key], to
    [save_to_cache].  For the URL https://github.com/acme/widgets the entry
    is written under that URL, and the look-up that follows, under
    "acme/widgets" as line 138 builds the key, finds nothing. *)
Theorem cache_write_and_lookup_keys_differ :
  let github_url := "https://github.com/acme/widgets" in
  let cache_key := Py.lower "acme" +:+ "/" +:+ Py.lower "widgets" in
  ∃ w1 w2,
    step10_save acme_env github_url (Some "abc123")
      sample_analysis sample_suggestions empty_world = (Normal (), w1) ∧
    (∃ item, cache_table w1 !! (github_url, "abc123") = Some item ∧
             ci_analysis item = sample_analysis ∧
             ci_suggestions item = sample_suggestions) ∧
    get_from_cache acme_env cache_key "abc123" w1 = (Normal None, w2) ∧
    step4_cache acme_env cache_key (Some "abc123") w1 = (Normal (), w2).
Proof.
  intros github_url cache_key.
  destruct (save_then_lookup acme_env github_url cache_key "abc123"
              sample_analysis sample_suggestions empty_world)
    as (w1 & w2 & Hsave & Hitem & Hget); try done.
  exists w1, w2. split; [done|]. split; [eauto|].
  split; [done|].
  unfold step4_cache. simpl. unfold mbind, M_bind. by rewrite Hget.
Qed.

(** ** File selection (step 6) *)

Section SelectionFacts.

Lemma slice_to_elem {A} (l : list A) (n : Z) (x : A) :
  x ∈ Py.slice_to l n → x ∈ l.
Proof.
  unfold Py.slice_to. destruct (0 <=? n); intros Hx.
  - rewrite <- (take_drop (Z.to_nat n) l). apply elem_of_app. by left.
  - rewrite <- (take_drop (Z.to_nat (Z.of_nat (length l) + n)) l).
    apply elem_of_app. by left.
Qed.

Lemma get_high_value_files_elem (files : list file) (max_files : Z) (p : string) :
  p ∈ get_high_value_files files max_files → p ∈ file_get_path <$> files.
Proof.
  unfold get_high_value_files. intros Hp.
  apply list_elem_of_fmap in Hp as (x & -> & Hx).
  apply slice_to_elem in Hx.
  rewrite sort_desc_perm, score_loop_filter in Hx.
  apply list_elem_of_filter in Hx as [_ Hx].
  apply list_elem_of_fmap in Hx as (f & -> & Hf).
  simpl. apply list_elem_of_fmap. eauto.
Qed.

Lemma valid_files_of_elem (files : list json) (file_tree : list string)
    (p : string) :
  p ∈ valid_files_of files file_tree → p ∈ file_tree.
Proof.
  induction files as [|j files IH]; simpl.
  - intros H. by apply elem_of_nil in H.
  - destruct j; try done.
    case_bool_decide as Hin; [|done].
    intros [->|H]%elem_of_cons; [done|by apply IH].
Qed.

(** What [select_important_files] comes to: nothing without an API key; with
    one, the AttributeError of [genai.configure] (line 245), before the model
    is asked. *)
Lemma select_important_files_cases (E : env) (files : list file)
    (max_files : Z) (w : world) :
  select_important_files E files max_files w
  = if truthy_str (api_key E)
    then (Raised (AttributeError "configure"), w)
    else (Normal [], w).
Proof.
  unfold select_important_files. by destruct (truthy_str (api_key E)).
Qed.

(** What the first half of step 6 comes to. *)
Lemma step6_hybrid_cases (E : env) (all_files : list file) (w : world) :
  step6_hybrid E all_files w
  = if (Py.len (get_high_value_files all_files 10) <? MIN_FILES_THRESHOLD)
       && truthy_str (api_key E)
    then (Raised (AttributeError "configure"), w)
    else (Normal (get_high_value_files all_files 10, "rule-based"), w).
Proof.
  unfold step6_hybrid.
  destruct (Py.len (get_high_value_files all_files 10) <? MIN_FILES_THRESHOLD);
    [|done].
  unfold mbind, M_bind. rewrite select_important_files_cases.
  by destruct (truthy_str (api_key E)).
Qed.

(** Whenever the first half of step 6 ends with a selection, it is made of
    paths of the tree: it is the rule-based one. *)
Lemma step6_hybrid_normal_within_tree (E : env) (all_files : list file)
    (w w' : world) (sel : list string) (method : string) :
  step6_hybrid E all_files w = (Normal (sel, method), w') →
  ∀ p, p ∈ sel → p ∈ file_get_path <$> all_files.
Proof.
  rewrite step6_hybrid_cases. destruct (_ && _); [done|].
  intros [= <- <- <-] p. apply get_high_value_files_elem.
Qed.

Lemma fallback_candidates_paths (all_files : list file) (w : world) :
  Forall (λ f, is_Some (file_path f)) all_files →
  fallback_candidates all_files w
  = (Normal (filter (λ p, existsb (Py.endswith p) fallback_extensions = true)
               (file_get_path <$> all_files)), w).
Proof.
  induction 1 as [|f fs [p Hp] _ IH]; [done|].
  assert (file_get_path f = p) as Hget by (unfold file_get_path; by rewrite Hp).
  rewrite fmap_cons, filter_cons, Hget.
  cbn [fallback_candidates]. unfold file_getitem_path. rewrite Hp.
  unfold mbind, M_bind, mret, M_ret in *. cbv beta iota. rewrite IH.
  case_decide as Hext.
  - by rewrite Hext.
  - by destruct (existsb (Py.endswith p) fallback_extensions).
Qed.

End SelectionFacts.

(** C7. When the rule-based selection has at least five paths, the first
    half of step 6 (lines 211-229) keeps it with the method "rule-based" and
    leaves the world as it was: no call to the AI selector is made. *)
Theorem hybrid_keeps_rule_based (E : env) (all_files : list file) (w : world) :
  MIN_FILES_THRESHOLD ≤ Py.len (get_high_value_files all_files 10) →
  step6_hybrid E all_files w
  = (Normal (get_high_value_files all_files 10, "rule-based"), w).
Proof.
  intros Hlen. unfold step6_hybrid.
  by destruct (Z.ltb_spec (Py.len (get_high_value_files all_files 10))
              MIN_FILES_THRESHOLD); [lia|].
Qed.

Lemma hybrid_keeps_rule_based_witness :
  step6_hybrid acme_env five_files empty_world
  = (Normal (["package.json"; "README.md"; "main.py"; "app.py"; "Dockerfile"],
             "rule-based"), empty_world).
Proof.
  apply (hybrid_keeps_rule_based acme_env five_files empty_world).
  vm_compute. discriminate.
Defined.



(** C4 fails on the code: with a non-empty selection the body of the [if] of
    line 232 is skipped and line 239 reads [fallback_files], which was never
    assigned: the step raises instead of keeping the selection. *)
Theorem step6_fallback_unbound (all_files : list file) (file_count : Z)
    (path : string) (rest : list string) (selection_method : string)
    (w : world) :
  step6_fallback all_files file_count (path :: rest) selection_method w
  = (Raised (UnboundLocalError "fallback_files"), w).
Proof. reflexivity. Qed.

(** The rest of C4 holds on the code: with an empty selection and a
    non-empty tree, the first five paths with a listed extension, in tree
    order, are taken with the method "fallback", and NO_ANALYZABLE_FILES is
    returned when there is none. *)
Lemma step6_fallback_empty (all_files : list file) (file_count : Z)
    (selection_method : string) (w : world) :
  0 < file_count →
  Forall (λ f, is_Some (file_path f)) all_files →
  step6_fallback all_files file_count [] selection_method w
  = match take 5 (filter (λ p, existsb (Py.endswith p) fallback_extensions = true)
                    (file_get_path <$> all_files)) with
    | [] => (Returned (error_result 400 "NO_ANALYZABLE_FILES"), w)
    | sel => (Normal (sel, "fallback"), w)
    end.
Proof.
  intros Hcount Hpaths. unfold step6_fallback.
  change (Py.len [] =? 0) with true.
  destruct (Z.gtb_spec file_count 0); [|lia]. cbn [andb].
  unfold mbind, M_bind, mret, M_ret. rewrite fallback_candidates_paths by done.
  cbv beta iota. unfold read_local, mret, M_ret. 
  unfold Py.slice_to. change (0 <=? 5) with true. cbv iota. change (Z.to_nat 5) with 5%nat.
  by destruct (take 5 _).
Qed.

(** ** Content fetch (step 7) *)

(** C9 fails on the code: line 256 calls [get_file_content] with the keyword
    [file_path], and the parameter is named [path]; the call of the first
    selected file raises TypeError, before any request is made, and no
    content map is built. *)
Theorem step7_contents_raises (E : env) (owner repo file_path : string)
    (rest : list string) (w : world) :
  step7_contents E owner repo (file_path :: rest) w
  = (Raised (TypeError "got an unexpected keyword argument file_path"), w).
Proof. reflexivity. Qed.

(** C10 fails on the code in its second half.  [get_file_content] answers a
    content of more than 100,000 characters with status 200 and a skipped
    marker (no content, reason FILE_TOO_LARGE); but the orchestrator never
    gets this answer: its call of line 256 raises TypeError (the keyword
    [file_path]), so the file is not left out of a content map, the
    invocation ends with an exception. *)
Theorem oversized_file_is_not_skipped (E : env) (owner repo path : string)
    (content : string) (rest : list string) (w : world) :
  requests_get_content E owner repo path = Resp 200 content →
  100000 < Py.len_str content →
  get_file_content E owner repo path 100000 w
  = (Normal (Response 200 (DataBody (Some (ContentDict
       {| cd_path := path; cd_content := None;
          cd_size := Py.len_str content; cd_skipped := true;
          cd_reason := Some "FILE_TOO_LARGE" |})))),
     World (cache_table w) (GitHubContent owner repo path :: calls w)) ∧
  step7_contents E owner repo (path :: rest) w
  = (Raised (TypeError "got an unexpected keyword argument file_path"), w).
Proof.
  intros Hreq Hlen. split; [|reflexivity].
  unfold get_file_content. run. rewrite Hreq. simpl.
  by destruct (Z.gtb_spec (Py.len_str content) 100000); [|lia].
Qed.

Lemma oversized_file_is_not_skipped_witness :
  (get_file_content acme_env "acme" "widgets" "big.py" 100000 empty_world).1
  = Normal (Response 200 (DataBody (Some (ContentDict
       {| cd_path := "big.py"; cd_content := None; cd_size := 100001;
          cd_skipped := true; cd_reason := Some "FILE_TOO_LARGE" |})))) ∧
  step7_contents acme_env "acme" "widgets" ["big.py"] empty_world
  = (Raised (TypeError "got an unexpected keyword argument file_path"),
     empty_world).
Proof.
  destruct (oversized_file_is_not_skipped acme_env "acme" "widgets" "big.py"
              long_text [] empty_world) as [Hget Hstep].
  - reflexivity.
  - vm_compute. reflexivity.
  - split; [|exact Hstep]. rewrite Hget. vm_compute. reflexivity.
Defined.

(** * Further properties

    ** file_scorer.py *)

Section ScorerFacts.

Lemma FILE_SCORES_range : Forall (λ kv, 50 ≤ kv.2 ≤ 100) FILE_SCORES.
Proof. unfold FILE_SCORES. repeat constructor; simpl; lia. Qed.

Lemma PATH_PATTERNS_range : Forall (λ kv, 0 ≤ kv.2 ≤ 40) PATH_PATTERNS.
Proof. unfold PATH_PATTERNS. repeat constructor; simpl; lia. Qed.

Lemma path_bonus_loop_range patterns s score :
  Forall (λ kv, 0 ≤ kv.2 ≤ 40) patterns →
  score ≤ path_bonus_loop patterns s score ≤ score + 40.
Proof.
  induction 1 as [|[p b] ps Hb _ IH]; simpl; [lia|].
  simpl in Hb. destruct (Py.search p s); lia.
Qed.

(** The score of a file that is not excluded, by its three parts. *)
Lemma score_file_parts path size :
  should_skip path = false → size ≤ 500000 →
  ∃ pb db,
    score_file path size
    = from_option id 0 (dict_get FILE_SCORES (filename_of path)) + pb + db ∧
    0 ≤ pb ≤ 40 ∧ 0 ≤ db ≤ 5.
Proof.
  intros Hskip Hsize. unfold score_file. rewrite Hskip.
  destruct (Z.gtb_spec size 500000) as [?|_]; [lia|].
  fold (filename_of path).
  set (fb := match dict_get FILE_SCORES (filename_of path) with
             | Some v => 0 + v | None => 0 end).
  assert (fb = from_option id 0 (dict_get FILE_SCORES (filename_of path))) as <-.
  { subst fb. by destruct (dict_get _ _). }
  pose proof (path_bonus_loop_range PATH_PATTERNS (Py.lower path) fb
                PATH_PATTERNS_range) as Hpb.
  set (r := path_bonus_loop PATH_PATTERNS (Py.lower path) fb) in *.
  destruct (Py.count path "/" <=? 1).
  - exists (r - fb), 5. lia.
  - exists (r - fb), 0. lia.
Qed.

Lemma score_file_excluded path size :
  should_skip path = true ∨ 500000 < size → score_file path size = -1.
Proof.
  unfold score_file. intros [->|Hsize]; [done|].
  destruct (should_skip path); [done|].
  by destruct (Z.gtb_spec size 500000); [|lia].
Qed.

Lemma score_file_nonneg_kept path size :
  0 ≤ score_file path size → should_skip path = false ∧ size ≤ 500000.
Proof.
  intros Hs. destruct (should_skip path) eqn:Hskip.
  { rewrite score_file_excluded in Hs by auto. lia. }
  split; [done|]. destruct (Z.le_gt_cases size 500000) as [?|Hgt]; [done|].
  rewrite score_file_excluded in Hs by (right; lia). lia.
Qed.

Lemma table_bonus_range name :
  0 ≤ from_option id 0 (dict_get FILE_SCORES name) ≤ 100 ∧
  (is_Some (dict_get FILE_SCORES name) →
   50 ≤ from_option id 0 (dict_get FILE_SCORES name)).
Proof.
  destruct (dict_get FILE_SCORES name) as [v|] eqn:Hget; simpl.
  - apply dict_get_Some in Hget. pose proof FILE_SCORES_range as Hall.
    rewrite Forall_forall in Hall. apply Hall in Hget. simpl in Hget.
    unfold id. split; [lia|]. intros _. lia.
  - split; [lia|]. by intros [? ?].
Qed.

Lemma lower_ascii_idemp c : Py.lower_ascii (Py.lower_ascii c) = Py.lower_ascii c.
Proof. by destruct c as [[] [] [] [] [] [] [] []]. Qed.

Lemma lower_ascii_slash c :
  Ascii.eqb (Py.lower_ascii c) "/" = Ascii.eqb c "/".
Proof. by destruct c as [[] [] [] [] [] [] [] []]. Qed.

Lemma lower_idemp s : Py.lower (Py.lower s) = Py.lower s.
Proof.
  induction s as [|c s IH]; simpl; [done|].
  by rewrite lower_ascii_idemp, IH.
Qed.

Lemma count_lower s : Py.count (Py.lower s) "/" = Py.count s "/".
Proof.
  induction s as [|c s IH]; simpl; [done|].
  by rewrite lower_ascii_slash, IH.
Qed.

Lemma sort_desc_length l : length (sort_desc l) = length l.
Proof. by rewrite sort_desc_perm. Qed.

(** A selected path, with the file it comes from. *)
Lemma get_high_value_files_origin (files : list file) (max_files : Z)
    (p : string) :
  p ∈ get_high_value_files files max_files →
  ∃ f, f ∈ files ∧ file_get_path f = p ∧ 0 ≤ file_score f.
Proof.
  unfold get_high_value_files. intros Hp.
  apply list_elem_of_fmap in Hp as (x & -> & Hx).
  apply slice_to_elem in Hx.
  rewrite sort_desc_perm, score_loop_filter in Hx.
  apply list_elem_of_filter in Hx as [Hge Hx].
  apply list_elem_of_fmap in Hx as (f & -> & Hf).
  by exists f.
Qed.

End ScorerFacts.

(** X1. A score lies between -1 and 145: the highest table entry, the
    highest path bonus and the depth bonus together. *)
Theorem score_file_bounds (path : string) (size : Z) :
  -1 ≤ score_file path size ≤ 145.
Proof.
  destruct (should_skip path) eqn:Hskip.
  { rewrite score_file_excluded by auto. lia. }
  destruct (Z.le_gt_cases size 500000) as [Hsize|Hsize].
  - destruct (score_file_parts path size Hskip Hsize) as (pb & db & -> & ? & ?).
    pose proof (table_bonus_range (filename_of path)) as [? _]. lia.
  - rewrite score_file_excluded by (right; lia). lia.
Qed.

(** X2. Scoring does not look at the case of the path: two paths with the
    same lower-cased form have the same score at any size. *)
Theorem score_file_case_insensitive (p q : string) (size : Z) :
  Py.lower p = Py.lower q → score_file p size = score_file q size.
Proof.
  intros Heq. unfold score_file, should_skip.
  rewrite <- (count_lower p), <- (count_lower q). by rewrite Heq.
Qed.

Lemma score_file_case_insensitive_witness :
  score_file "SRC/API/Index.JS" 10 = score_file "src/api/index.js" 10.
Proof. by apply (score_file_case_insensitive "SRC/API/Index.JS"). Defined.

(** X3. A file that is not excluded and whose name is in the priority table
    scores more than any file whose name is not in the table, whatever their
    directories and depths. *)
Theorem listed_name_outranks_unlisted (p q : string) (size_p size_q : Z) :
  0 ≤ score_file p size_p →
  is_Some (dict_get FILE_SCORES (filename_of p)) →
  dict_get FILE_SCORES (filename_of q) = None →
  score_file q size_q < score_file p size_p.
Proof.
  intros Hp Hlisted Hunlisted.
  destruct (score_file_nonneg_kept p size_p Hp) as [Hskip Hsize].
  destruct (score_file_parts p size_p Hskip Hsize) as (pb & db & -> & ? & ?).
  pose proof (table_bonus_range (filename_of p)) as [_ Hmin].
  specialize (Hmin Hlisted).
  set (fb := from_option id 0 (dict_get FILE_SCORES (filename_of p))) in *.
  destruct (should_skip q) eqn:Hskipq.
  { rewrite score_file_excluded by auto. lia. }
  destruct (Z.le_gt_cases size_q 500000) as [Hsq|Hsq].
  - destruct (score_file_parts q size_q Hskipq Hsq) as (pb' & db' & -> & ? & ?).
    rewrite Hunlisted. cbn [from_option]. lia.
  - rewrite score_file_excluded by (right; lia). lia.
Qed.

Lemma listed_name_outranks_unlisted_witness :
  score_file "src/api/routes/users.py" 100 < score_file "docs/deep/dir/tsconfig.json" 100.
Proof.
  apply (listed_name_outranks_unlisted "docs/deep/dir/tsconfig.json"
           "src/api/routes/users.py" 100 100).
  - vm_compute. discriminate.
  - vm_compute. eauto.
  - reflexivity.
Defined.

(** X4. The number of paths returned: with [k] files that are not excluded,
    [min(max_files, k)] for a [max_files] of at least 0 (nothing for 0 or
    for an empty list), and [max(0, k + max_files)] for a negative one. *)
Theorem get_high_value_files_length (files : list file) (max_files : Z) :
  Py.len (get_high_value_files files max_files)
  = if 0 <=? max_files then Z.min max_files (Py.len (kept files))
    else Z.max 0 (Py.len (kept files) + max_files).
Proof.
  unfold get_high_value_files, Py.len, Py.slice_to, kept.
  rewrite length_fmap, <- score_loop_filter.
  destruct (Z.leb_spec 0 max_files);
    rewrite length_take, sort_desc_length; lia.
Qed.

(** X5. The selection is the top of the ranking: the entries that are not
    excluded split into the selected ones and the rest, and no entry of the
    rest scores more than a selected one. *)
Theorem get_high_value_files_top (files : list file) (max_files : Z) :
  ∃ sel rest : list scored,
    get_high_value_files files max_files = scored_path <$> sel ∧
    sel ++ rest ≡ₚ kept files ∧
    ∀ x y, x ∈ sel → y ∈ rest → scored_score y ≤ scored_score x.
Proof.
  unfold get_high_value_files, kept. rewrite <- score_loop_filter.
  set (sorted := sort_desc (score_loop files)).
  assert (∃ m, Py.slice_to sorted max_files = take m sorted) as [m ->].
  { unfold Py.slice_to. destruct (0 <=? max_files); eauto. }
  exists (take m sorted), (drop m sorted).
  split; [done|]. rewrite take_drop. split; [apply sort_desc_perm|].
  intros x y Hx Hy.
  pose proof (sort_desc_sorted (score_loop files)) as Hs. fold sorted in Hs.
  rewrite <- (take_drop m sorted) in Hs.
  by apply (StronglySorted_app_1_elem_of _ _ _ x y) in Hs.
Qed.

(** X6. The rules never select a path that a skip pattern matches, nor a
    file of more than 500,000 bytes, whatever [max_files] is. *)
Theorem get_high_value_files_never_skipped (files : list file)
    (max_files : Z) (p : string) :
  p ∈ get_high_value_files files max_files →
  should_skip p = false ∧
  ∃ f, f ∈ files ∧ file_get_path f = p ∧ file_get_size f ≤ 500000.
Proof.
  intros Hp.
  apply get_high_value_files_origin in Hp as (f & Hf & <- & Hscore).
  apply score_file_nonneg_kept in Hscore as [Hskip Hsize].
  split; [done|]. by exists f.
Qed.

Lemma get_high_value_files_never_skipped_witness :
  should_skip "package.json" = false ∧
  ∃ f, f ∈ acme_files ∧ file_get_path f = "package.json" ∧
       file_get_size f ≤ 500000.
Proof.
  apply (get_high_value_files_never_skipped acme_files 10 "package.json").
  vm_compute. left.
Defined.

(** ** github_client.py *)

Section ClientFacts.

Lemma error_code_get_nonempty status_code :
  error_code_get ERROR_CODE status_code ≠ "".
Proof.
  unfold ERROR_CODE. cbn [error_code_get].
  repeat (destruct (_ =? status_code); [done|]). done.
Qed.

Lemma error_code_get_expected status_code :
  error_code_get ERROR_CODE status_code = expected_error_code status_code.
Proof.
  unfold ERROR_CODE, expected_error_code. cbn [error_code_get].
  repeat match goal with
         | |- context [?k =? status_code] =>
             destruct (Z.eqb_spec k status_code);
             [subst status_code; reflexivity|]
         end.
  repeat case_decide; congruence.
Qed.

Lemma create_response_status status_code data error_code :
  statusCode (create_response status_code data error_code) = status_code.
Proof. unfold create_response. by destruct (400 <=? status_code). Qed.

Lemma failure_response_status {A} (h : http A) (r : response) :
  failure_response h = Some r → statusCode r ≠ 200.
Proof.
  destruct h as [status_code payload| | |]; simpl.
  - destruct (Z.eqb_spec status_code 200); [done|].
    intros [= <-]. by rewrite create_response_status.
  - by intros [= <-].
  - by intros [= <-].
  - by intros [= <-].
Qed.

Lemma failure_response_None {A} (h : http A) :
  failure_response h = None ↔ ∃ payload, h = Resp 200 payload.
Proof.
  destruct h as [status_code payload| | |]; simpl;
    try (split; [done|by intros [? ?]]).
  destruct (Z.eqb_spec status_code 200) as [->|Hne].
  - split; [eauto|done].
  - split; [done|]. intros [? [= ? ?]]. done.
Qed.

End ClientFacts.

(** X7. [create_response] keeps the status.  From 400 on the body holds an
    error code and no data: the code given when it is not empty, and
    otherwise the code of the table for 404, 401, 403, 409, 503 and 500 and
    UNKNOWN_ERROR for any other status; it is never empty.  Below 400 the
    body holds the data and no error code. *)
Theorem create_response_shape (status_code : Z) (data : option data)
    (error_code : option string) :
  statusCode (create_response status_code data error_code) = status_code ∧
  (400 ≤ status_code →
   ∃ c, resp_body (create_response status_code data error_code)
        = ErrorBody c None ∧
        c ≠ "" ∧
        (∀ e, error_code = Some e → e ≠ "" → c = e) ∧
        (error_code = None ∨ error_code = Some "" →
         c = expected_error_code status_code)) ∧
  (status_code < 400 →
   resp_body (create_response status_code data error_code) = DataBody data).
Proof.
  split; [apply create_response_status|].
  unfold create_response.
  destruct (Z.leb_spec 400 status_code); (split; [|lia || done]); [|lia].
  intros _. destruct error_code as [e|]; simpl.
  - destruct (String.eqb_spec e "") as [->|Hne]; simpl.
    + eexists. split; [done|]. split; [apply error_code_get_nonempty|].
      split; [by intros e [= <-]|]. intros _. apply error_code_get_expected.
    + exists e. split; [done|]. split; [done|].
      split; [by intros ? [= <-]|]. by intros [?|[= ?]].
  - eexists. split; [done|]. split; [apply error_code_get_nonempty|].
    split; [done|]. intros _. apply error_code_get_expected.
Qed.

(** X8. The four look-ups treat a request that did not give a 200 alike:
    after one request, each answers with [create_response] of the status
    received, or with 503 REQUEST_TIMEOUT, 503 CONNECTION_ERROR or 500 for
    the three exceptions; such an answer never has the status 200. *)
Theorem lookups_fail_alike (E : env) (owner repo path : string)
    (branch : option string) (max_size : Z) (w : world) :
  (∀ r, failure_response (requests_get_repo E owner repo) = Some r →
        get_repo_metadata E owner repo w
        = (Normal r, called (GitHubRepo owner repo) w) ∧
        statusCode r ≠ 200) ∧
  (∀ r, failure_response (requests_get_commit E owner repo branch) = Some r →
        get_latest_commit_sha E owner repo branch w
        = (Normal r, called (GitHubCommit owner repo branch) w) ∧
        statusCode r ≠ 200) ∧
  (∀ r, failure_response (requests_get_tree E owner repo branch) = Some r →
        get_file_tree E owner repo branch w
        = (Normal r, called (GitHubTree owner repo branch) w) ∧
        statusCode r ≠ 200) ∧
  (∀ r, failure_response (requests_get_content E owner repo path) = Some r →
        get_file_content E owner repo path max_size w
        = (Normal r, called (GitHubContent owner repo path) w) ∧
        statusCode r ≠ 200).
Proof.
  repeat split; try by eapply failure_response_status.
  - unfold get_repo_metadata. run.
    destruct (requests_get_repo E owner repo) as [s ?| | |]; simpl in *;
      try by injection H as <-.
    destruct (s =? 200); [done|]. by injection H as <-.
  - unfold get_latest_commit_sha. run.
    destruct (requests_get_commit E owner repo branch) as [s ?| | |]; simpl in *;
      try by injection H as <-.
    destruct (s =? 200); [done|]. by injection H as <-.
  - unfold get_file_tree. run.
    destruct (requests_get_tree E owner repo branch) as [s ?| | |]; simpl in *;
      try by injection H as <-.
    destruct (s =? 200); [done|]. by injection H as <-.
  - unfold get_file_content. run.
    destruct (requests_get_content E owner repo path) as [s ?| | |]; simpl in *;
      try by injection H as <-.
    destruct (s =? 200); [done|]. by injection H as <-.
Qed.

(** ** handler.py, step by step *)

Section StepFacts.



Lemma len_zero_nil {A} (l : list A) : (Py.len l =? 0) = true ↔ l = [].
Proof.
  unfold Py.len. destruct l as [|x l]; [done|].
  split; [|done]. intros H%Z.eqb_eq. rewrite length_cons in H. lia.
Qed.

End StepFacts.

(** X9. Past line 124, steps 1 to 11 come to one of two ends: for an
    absent or empty [github_url] the 400 MISSING_GITHUB_URL result, for any
    other the UnboundLocalError of [parse_github_url]; either way no request
    is made and the cache is left as it was. *)
Theorem handler_steps_outcomes (E : env) (ev : event) (w : world) :
  handler_steps E ev w
  = if truthy_str (github_url ev)
    then (Raised (UnboundLocalError "url"), w)
    else (Returned (error_result 400 "MISSING_GITHUB_URL"), w).
Proof.
  unfold handler_steps, step1_parse, mbind, M_bind.
  by destruct (truthy_str (github_url ev)).
Qed.

(** X10. When [get_repo_metadata] has returned its response, step 2 makes
    no further call and does not raise: a response whose status is not 200
    ends the handler as it is, which for a received status below 400 is a
    body [{"data": None}] without an error code; a response with status 200
    holds the metadata of the repository document, and the step goes on
    with them and with their default branch (none when the document has
    none; no topics when it has none). *)
Theorem step2_metadata_outcomes (E : env) (owner repo : string) (w w' : world)
    (r : response) :
  get_repo_metadata E owner repo w = (Normal r, w') →
  (statusCode r ≠ 200 →
   step2_metadata E owner repo w = (Returned (Status r), w')) ∧
  (statusCode r = 200 →
   ∃ m, resp_body r = DataBody (Some (MetadataDict m)) ∧
        step2_metadata E owner repo w
        = (Normal (m, md_default_branch m), w')) ∧
  (∀ status_code payload,
      requests_get_repo E owner repo = Resp status_code payload →
      status_code ≠ 200 → status_code < 400 →
      r = Response status_code (DataBody None)) ∧
  (∀ rj, requests_get_repo E owner repo = Resp 200 rj →
         statusCode r = 200 ∧
         ∃ m, resp_body r = DataBody (Some (MetadataDict m)) ∧
              md_name m = rj_name rj ∧
              md_stars m = rj_stargazers_count rj ∧
              md_topics m = default [] (rj_topics rj) ∧
              md_default_branch m = rj_default_branch rj).
Proof.
  intros Hget. split; [|split; [|split]].
  - intros Hne. unfold step2_metadata, mbind, M_bind. rewrite Hget.
    by destruct (Z.eqb_spec (statusCode r) 200).
  - intros H200. unfold step2_metadata, mbind, M_bind. rewrite Hget, H200.
    simpl. revert Hget H200. unfold get_repo_metadata. run.
    destruct (requests_get_repo E owner repo) as [s rj| | |];
      try (intros [= <- <-]; done).
    destruct (Z.eqb_spec s 200) as [->|Hs]; simpl.
    + intros [= <- <-] _. by eexists.
    + intros [= <- <-]. by rewrite create_response_status.
  - intros s payload Hreq Hne Hlt. revert Hget.
    unfold get_repo_metadata. run. rewrite Hreq.
    destruct (Z.eqb_spec s 200); [done|]. simpl. intros [= <- <-].
    unfold create_response. by destruct (Z.leb_spec 400 s); [lia|].
  - intros rj Hreq. revert Hget. unfold get_repo_metadata. run. rewrite Hreq.
    simpl. intros [= <- <-]. split; [done|]. eexists. by repeat split.
Qed.

Lemma step2_metadata_outcomes_witness :
  ∃ m w',
    step2_metadata acme_env "acme" "widgets" empty_world
    = (Normal (m, Some "main"), w') ∧
    md_name m = Some "widgets" ∧ md_topics m = [].
Proof.
  edestruct (step2_metadata_outcomes acme_env "acme" "widgets" empty_world)
    as (_ & H200 & _ & Hdoc); [reflexivity|].
  destruct (H200 eq_refl) as (m & Hbody & Hstep).
  exists m. eexists. split; [|by injection Hbody as <-].
  rewrite Hstep. by injection Hbody as <-.
Defined.

(** X11. When [get_file_tree] has returned its response, step 5 makes no
    further call and does not raise: a response whose status is not 200 ends
    the handler as it is; a response with status 200 holds the blobs of the
    tree in tree order, each with its path and a size, and their number as
    [file_count]; without a blob (an empty tree, or directories only) the
    handler ends with 400 EMPTY_REPOSITORY, otherwise the step goes on with
    the files and their number. *)
Theorem step5_tree_outcomes (E : env) (owner repo : string)
    (branch : option string) (w w' : world) (r : response) :
  get_file_tree E owner repo branch w = (Normal r, w') →
  (statusCode r ≠ 200 →
   step5_tree E owner repo branch w = (Returned (Status r), w')) ∧
  (statusCode r = 200 →
   ∃ files truncated,
     resp_body r = DataBody (Some (TreeDict files truncated (Py.len files))) ∧
     Forall (λ f, is_Some (file_path f) ∧ is_Some (file_size f)) files ∧
     step5_tree E owner repo branch w
     = if decide (files = [])
       then (Returned (error_result 400 "EMPTY_REPOSITORY"), w')
       else (Normal (files, Py.len files), w')) ∧
  (∀ tj, requests_get_tree E owner repo branch = Resp 200 tj →
         statusCode r = 200 ∧
         ∃ files truncated file_count,
           resp_body r = DataBody (Some (TreeDict files truncated file_count)) ∧
           file_path <$> files
           = (λ item, Some (ti_path item))
               <$> filter (λ item, ti_type item = "blob") (tj_tree tj)).
Proof.
  intros Hget. split; [|split].
  - intros Hne. unfold step5_tree, mbind, M_bind. rewrite Hget.
    by destruct (Z.eqb_spec (statusCode r) 200).
  - intros H200. unfold step5_tree, mbind, M_bind. rewrite Hget, H200.
    simpl. revert Hget H200. unfold get_file_tree. run.
    destruct (requests_get_tree E owner repo branch) as [s tj| | |];
      try (intros [= <- <-]; done).
    destruct (Z.eqb_spec s 200) as [->|Hs]; simpl.
    2: { intros [= <- <-]. by rewrite create_response_status. }
    intros [= <- <-] _.
    set (files := _ <$> filter _ (tj_tree tj)).
    exists files, (tj_truncated tj). split; [done|]. split.
    { apply Forall_fmap, Forall_forall. intros item _. simpl. eauto. }
    simpl. destruct (Py.len files =? 0) eqn:Hlen.
    + apply len_zero_nil in Hlen. by rewrite decide_True.
    + rewrite decide_False; [done|]. intros Hnil.
      apply len_zero_nil in Hnil. congruence.
  - intros tj Hreq. revert Hget. unfold get_file_tree. run. rewrite Hreq.
    simpl. intros [= <- <-]. split; [done|].
    eexists _, _, _. split; [done|]. by rewrite <- list_fmap_compose.
Qed.

Lemma step5_tree_outcomes_witness :
  ∃ w', step5_tree acme_env "acme" "widgets" (Some "main") empty_world
        = (Normal (acme_files, 3), w').
Proof.
  edestruct (step5_tree_outcomes acme_env "acme" "widgets" (Some "main")
               empty_world) as (_ & H200 & _); [reflexivity|].
  destruct (H200 eq_refl) as (files & truncated & Hbody & _ & Hstep).
  eexists. rewrite Hstep. by injection Hbody as <- _.
Defined.

(** X12. When the commit request does not give a 200, step 3 leaves
    [commit_sha = None] after its one request, and with that value the cache
    is neither read by step 4 nor written by step 10: no call is made. *)
Theorem commit_failure_disables_cache (E : env) (owner repo cache_key url : string)
    (branch : option string) (a : analysis) (s : json) (w : world) :
  (∀ cj, requests_get_commit E owner repo branch ≠ Resp 200 cj) →
  ∃ w',
    step3_commit E owner repo branch w = (Normal None, w') ∧
    calls w' = GitHubCommit owner repo branch :: calls w ∧
    step4_cache E cache_key None w' = (Normal (), w') ∧
    step10_save E url None a s w' = (Normal (), w').
Proof.
  intros Hfail. eexists. split; [by apply step3_commit_failure|].
  split; [done|]. apply no_commit_no_cache.
Qed.

Lemma commit_failure_disables_cache_witness :
  ∃ w',
    step3_commit silent_env "acme" "widgets" (Some "main") empty_world
      = (Normal None, w') ∧
    calls w' = [GitHubCommit "acme" "widgets" (Some "main")] ∧
    step4_cache silent_env "acme/widgets" None w' = (Normal (), w') ∧
    step10_save silent_env "https://github.com/acme/widgets" None
      sample_analysis sample_suggestions w' = (Normal (), w').
Proof.
  apply (commit_failure_disables_cache silent_env "acme" "widgets"
           "acme/widgets" "https://github.com/acme/widgets" (Some "main")
           sample_analysis sample_suggestions empty_world).
  intros cj. discriminate.
Defined.

(** X13. With an empty selection and a non-empty tree whose files all have
    a path, the second half of step 6 takes the first five paths that end
    with one of the eight extensions, in tree order, with the method
    "fallback"; when no path has such an extension it ends the handler with
    400 NO_ANALYZABLE_FILES.  No call is made. *)
Theorem fallback_selects_by_extension (all_files : list file) (file_count : Z)
    (selection_method : string) (w : world) :
  0 < file_count →
  Forall (λ f, is_Some (file_path f)) all_files →
  step6_fallback all_files file_count [] selection_method w
  = match take 5 (filter (λ p, existsb (Py.endswith p) fallback_extensions = true)
                    (file_get_path <$> all_files)) with
    | [] => (Returned (error_result 400 "NO_ANALYZABLE_FILES"), w)
    | sel => (Normal (sel, "fallback"), w)
    end.
Proof. apply step6_fallback_empty. Qed.

Lemma fallback_selects_by_extension_witness :
  step6_fallback acme_files 3 [] "rule-based" empty_world
  = (Normal (["src/index.js"; "node_modules/x.js"], "fallback"), empty_world).
Proof.
  rewrite (fallback_selects_by_extension acme_files 3 "rule-based" empty_world).
  - reflexivity.
  - lia.
  - repeat constructor; simpl; eauto.
Defined.




(** ** The cache *)

(** X17. What [save_to_cache] stores under a key, a look-up under the same
    key finds: the item holds the analysis and the suggestions as written,
    and step 4 then ends the handler with that pay-load and
    [from_cache = True]. *)
Theorem save_then_hit (E : env) (cache_key sha : string) (a : analysis)
    (s : json) (w : world) :
  put_item_raises E = false → get_item_raises E = false → sha ≠ "" →
  ∃ w1 w2 item,
    save_to_cache E cache_key sha a s w = (Normal true, w1) ∧
    get_from_cache E cache_key sha w1 = (Normal (Some item), w2) ∧
    ci_analysis item = a ∧ ci_suggestions item = s ∧
    step4_cache E cache_key (Some sha) w1 = (Returned (Payload a s true), w2).
Proof.
  intros Hput Hget Hsha.
  unfold step4_cache, save_to_cache, get_from_cache. run.
  rewrite Hput, Hget. simpl.
  destruct (String.eqb_spec sha ""); [done|]. simpl.
  eexists _, _, _. split; [done|]. simpl. rewrite lookup_insert_eq.
  by repeat split.
Qed.

Lemma save_then_hit_witness :
  ∃ w1 w2,
    save_to_cache acme_env "acme/widgets" "abc123" sample_analysis
      sample_suggestions empty_world = (Normal true, w1) ∧
    step4_cache acme_env "acme/widgets" (Some "abc123") w1
    = (Returned (Payload sample_analysis sample_suggestions true), w2).
Proof.
  destruct (save_then_hit acme_env "acme/widgets" "abc123" sample_analysis
              sample_suggestions empty_world)
    as (w1 & w2 & item & Hsave & _ & _ & _ & Hstep); try done.
  by exists w1, w2.
Defined.

(** X18. The cache key is exact: a write under (cache_key, sha) leaves the
    look-up under any other pair, whether it differs in the repository or in
    the commit, as it was. *)
Theorem save_leaves_other_keys (E : env) (cache_key sha key' sha' : string)
    (a : analysis) (s : json) (w : world) :
  (cache_key, sha) ≠ (key', sha') →
  (get_from_cache E key' sha' (save_to_cache E cache_key sha a s w).2).1
  = (get_from_cache E key' sha' w).1.
Proof.
  intros Hne. unfold save_to_cache, get_from_cache. run.
  destruct (put_item_raises E), (get_item_raises E); simpl; try done.
  by rewrite lookup_insert_ne.
Qed.

Lemma save_leaves_other_keys_witness :
  (get_from_cache acme_env "acme/widgets" "abc124"
     (save_to_cache acme_env "acme/widgets" "abc123" sample_analysis
        sample_suggestions empty_world).2).1
  = Normal None.
Proof.
  rewrite (save_leaves_other_keys acme_env "acme/widgets" "abc123"
             "acme/widgets" "abc124" sample_analysis sample_suggestions
             empty_world).
  - reflexivity.
  - intros [= ?].
Defined.

(** X19. A failing cache never fails the handler.  When [get_item] raises,
    step 4 goes on as after a miss, whatever the table holds; when
    [put_item] raises, [save_to_cache] answers [False], step 10 goes on, and
    the table is as it was. *)
Theorem cache_failures_degrade (E : env) (cache_key url : string)
    (commit_sha : option string) (a : analysis) (s : json) (w : world) :
  (get_item_raises E = true →
   ∃ w', step4_cache E cache_key commit_sha w = (Normal (), w') ∧
         cache_table w' = cache_table w) ∧
  (put_item_raises E = true →
   (∀ sha, ∃ w', save_to_cache E url sha a s w = (Normal false, w') ∧
                 cache_table w' = cache_table w) ∧
   ∃ w', step10_save E url commit_sha a s w = (Normal (), w') ∧
         cache_table w' = cache_table w).
Proof.
  split.
  - intros Hget. unfold step4_cache, get_from_cache. run. rewrite Hget.
    destruct (truthy_str commit_sha); by eexists.
  - intros Hput. split.
    + intros sha. unfold save_to_cache. run. rewrite Hput. by eexists.
    + unfold step10_save, save_to_cache. run. rewrite Hput.
      destruct (truthy_str commit_sha); by eexists.
Qed.

(** ** Credentials *)

(** X20. [_get_credentials] returns what the module-level variable holds
    after the call.  A token held before the call is returned as it is,
    without a look at the surroundings; a token once resolved is returned by
    every later call, whatever the surroundings have become; a failure
    leaves the variable empty, so the next call tries again.  One call asks
    SSM at most once, and not at all outside AWS. *)
Theorem github_token_is_cached (S S' : surroundings) (p : process) :
  cached (_get_credentials S p).2 = (_get_credentials S p).1 ∧
  (∀ t, cached p = Some t → _get_credentials S p = (Some t, p)) ∧
  (∀ t, (_get_credentials S p).1 = Some t →
        _get_credentials S' (_get_credentials S p).2
        = (Some t, (_get_credentials S p).2)) ∧
  (length (ssm_requests (_get_credentials S p).2)
   ≤ length (ssm_requests p) + 1)%nat ∧
  (on_aws S = false →
   ssm_requests (_get_credentials S p).2 = ssm_requests p).
Proof.
  assert (Hc : cached (_get_credentials S p).2 = (_get_credentials S p).1).
  { unfold _get_credentials, _is_running_on_aws.
    destruct (cached p) eqn:Hp; [done|].
    destruct (on_aws S).
    - destruct (truthy_str (environ S "GITHUB_PARAM_NAME")); [|done]. simpl.
      by destruct (ssm_get_parameter S _).
    - by destruct (dotenv_installed S). }
  split; [done|]. split; [|split; [|split]].
  - intros t Ht. unfold _get_credentials. by rewrite Ht.
  - intros t Ht. rewrite <- Hc in Ht. unfold _get_credentials at 1.
    by rewrite Ht.
  - unfold _get_credentials, _is_running_on_aws.
    destruct (cached p); [simpl; lia|].
    destruct (on_aws S).
    + destruct (truthy_str (environ S "GITHUB_PARAM_NAME")); simpl; [|lia].
      destruct (ssm_get_parameter S _); simpl; lia.
    + destruct (dotenv_installed S); simpl; lia.
  - intros Haws. unfold _get_credentials, _is_running_on_aws. rewrite Haws.
    destruct (cached p); [done|]. by destruct (dotenv_installed S).
Qed.

(** X21. [get_api_key] caches in the same way: it returns what its
    module-level variable holds after the call, returns a key held or once
    resolved whatever the surroundings, and asks SSM at most once a call. *)
Theorem gemini_api_key_is_cached (S S' : surroundings) (p : process) :
  cached (get_api_key S p).2 = (get_api_key S p).1 ∧
  (∀ k, cached p = Some k → get_api_key S p = (Some k, p)) ∧
  (∀ k, (get_api_key S p).1 = Some k →
        get_api_key S' (get_api_key S p).2 = (Some k, (get_api_key S p).2)) ∧
  (length (ssm_requests (get_api_key S p).2)
   ≤ length (ssm_requests p) + 1)%nat.
Proof.
  assert (Hc : cached (get_api_key S p).2 = (get_api_key S p).1).
  { unfold get_api_key, is_running_on_aws.
    destruct (cached p) eqn:Hp; [done|].
    destruct (on_aws S).
    - destruct (truthy_str (environ S "GEMINI_PARAM_NAME")); [|done]. simpl.
      by destruct (ssm_get_parameter S _).
    - by destruct (dotenv_installed S). }
  split; [done|]. split; [|split].
  - intros t Ht. unfold get_api_key. by rewrite Ht.
  - intros t Ht. rewrite <- Hc in Ht. unfold get_api_key at 1. by rewrite Ht.
  - unfold get_api_key, is_running_on_aws.
    destruct (cached p); [simpl; lia|].
    destruct (on_aws S).
    + destruct (truthy_str (environ S "GEMINI_PARAM_NAME")); simpl; [|lia].
      destruct (ssm_get_parameter S _); simpl; lia.
    + destruct (dotenv_installed S); simpl; lia.
Qed.

(** X22. The headers of a request always hold the three GitHub headers, in
    this order; an [Authorization] header follows exactly when the token
    resolved is not empty, and is then [Bearer] and the token. *)
Theorem headers_authorization (S : surroundings) (p : process) :
  (_get_headers S p).2 = (_get_credentials S p).2 ∧
  take 3 (_get_headers S p).1
  = [ ("Accept", "application/vnd.github+json");
      ("User-Agent", "AI-Demo-Builder");
      ("X-GitHub-Api-Version", "2022-11-28") ] ∧
  drop 3 (_get_headers S p).1
  = match (_get_credentials S p).1 with
    | Some token =>
        if String.eqb token "" then []
        else [("Authorization", "Bearer " +:+ token)]
    | None => []
    end.
Proof.
  unfold _get_headers.
  destruct (_get_credentials S p) as [[token|] p']; simpl; [|done].
  by destruct (String.eqb token "").
Qed.

(** ** The texts of gemini_client.py *)

Section TextFacts.

Lemma append_cons (x : ascii) (a b : string) :
  String x a +:+ b = String x (a +:+ b).
Proof. reflexivity. Qed.

Lemma append_empty (b : string) : "" +:+ b = b.
Proof. reflexivity. Qed.

Lemma append_assoc (a b c : string) : (a +:+ b) +:+ c = a +:+ (b +:+ c).
Proof.
  induction a as [|x a IH]; [done|]. by rewrite !append_cons, IH.
Qed.

Lemma length_append (a b : string) :
  String.length (a +:+ b) = (String.length a + String.length b)%nat.
Proof.
  induction a as [|x a IH]; [done|]. rewrite append_cons. simpl. by rewrite IH.
Qed.

Lemma append_nonempty (a b : string) : b ≠ "" → a +:+ b ≠ "".
Proof. by destruct a. Qed.

Lemma rstrip_append (a b : string) :
  b ≠ "" → PyStr.rstrip b = b → PyStr.rstrip (a +:+ b) = a +:+ b.
Proof.
  intros Hne Hb. induction a as [|x a IH]; [done|].
  rewrite append_cons. simpl. rewrite IH.
  pose proof (append_nonempty a b Hne).
  by destruct (a +:+ b).
Qed.

Lemma rstrip_nl (a : string) :
  PyStr.rstrip (a +:+ PyStr.nl) = PyStr.rstrip a.
Proof.
  induction a as [|x a IH]; [done|]. rewrite append_cons. simpl. by rewrite IH.
Qed.

Lemma endswith_append (a b : string) : Py.endswith (a +:+ b) b = true.
Proof.
  induction a as [|x a IH].
  - rewrite append_empty. destruct b; simpl; [done|].
    by rewrite Ascii.eqb_refl, String.eqb_refl.
  - rewrite append_cons. simpl. rewrite IH. apply orb_true_r.
Qed.

Lemma substring_append (a b : string) :
  String.substring 0 (String.length a) (a +:+ b) = a.
Proof.
  induction a as [|x a IH]; [by destruct b|].
  rewrite append_cons. simpl. by rewrite IH.
Qed.

Lemma drop_last_append (a b : string) :
  Py.drop_last (a +:+ b) (String.length b) = a.
Proof.
  unfold Py.drop_last. rewrite length_append.
  replace (String.length a + String.length b - String.length b)%nat
    with (String.length a) by lia.
  apply substring_append.
Qed.

Lemma lstrip_length (s : string) :
  (String.length (PyStr.lstrip s) ≤ String.length s)%nat.
Proof.
  induction s as [|c s IH]; simpl; [done|].
  destruct (PyStr.isspace c); simpl; lia.
Qed.

Lemma lstrip_fixed_append (a b : string) :
  PyStr.lstrip a = a → a ≠ "" → PyStr.lstrip (a +:+ b) = a +:+ b.
Proof.
  destruct a as [|c a]; [done|]. rewrite append_cons. simpl. intros Hl _.
  destruct (PyStr.isspace c); [|done].
  pose proof (lstrip_length a) as Hlen. rewrite Hl in Hlen. simpl in Hlen. lia.
Qed.

Lemma strip_between_nl (body : string) :
  PyStr.lstrip body = body → PyStr.rstrip body = body →
  PyStr.strip (PyStr.nl +:+ body +:+ PyStr.nl) = body.
Proof.
  intros Hl Hr. unfold PyStr.strip.
  change (PyStr.lstrip (PyStr.nl +:+ body +:+ PyStr.nl))
    with (PyStr.lstrip (body +:+ PyStr.nl)).
  destruct (decide (body = "")) as [->|Hne]; [done|].
  rewrite lstrip_fixed_append by done. by rewrite rstrip_nl.
Qed.

Lemma take_first_length (s : string) (n : nat) :
  String.length (PyStr.take_first s n) = (n `min` String.length s)%nat.
Proof.
  revert s. induction n as [|n IH]; intros [|c s]; simpl; try done.
  by rewrite IH.
Qed.

Lemma pretty_negative (n : Z) :
  n < 0 → PyStr.str n = "-" +:+ PyStr.str (- n).
Proof. by destruct n. Qed.

Lemma prefix_fence_json (s : string) :
  String.prefix "```" s = false → String.prefix "```json" s = false.
Proof.
  destruct s as [|c1 [|c2 [|c3 rest]]]; cbn [String.prefix]; try done;
    repeat (match goal with
            | |- context [ascii_dec ?a ?b] => destruct (ascii_dec a b); try done
            end).
  by destruct rest.
Qed.

End TextFacts.

(** X23. The clean-up takes a Markdown fence off the answer of the model:
    a text without white space at its ends, put between [```json] or [```],
    a line feed, and a line feed with the closing [```], comes back as it
    was; and a text without fence and without white space at its ends is
    left as it is. *)
Theorem clean_response_text_fenced (body : string) :
  PyStr.lstrip body = body → PyStr.rstrip body = body →
  clean_response_text
    ("```json" +:+ PyStr.nl +:+ body +:+ PyStr.nl +:+ "```") = body ∧
  clean_response_text
    ("```" +:+ PyStr.nl +:+ body +:+ PyStr.nl +:+ "```") = body ∧
  (String.prefix "```" body = false → Py.endswith body "```" = false →
   clean_response_text body = body).
Proof.
  intros Hl Hr.
  assert (Hend : ∀ pre, PyStr.rstrip (pre +:+ PyStr.nl +:+ body +:+ PyStr.nl +:+ "```")
                        = pre +:+ PyStr.nl +:+ body +:+ PyStr.nl +:+ "```").
  { intros pre. rewrite <- !append_assoc. by apply rstrip_append. }
  assert (Hcut : Py.endswith (PyStr.nl +:+ body +:+ PyStr.nl +:+ "```") "```" = true
                 ∧ Py.drop_last (PyStr.nl +:+ body +:+ PyStr.nl +:+ "```") 3
                   = PyStr.nl +:+ body +:+ PyStr.nl).
  { rewrite <- !append_assoc. split; [apply endswith_append|].
    apply (drop_last_append _ "```"). }
  destruct Hcut as [Hcut1 Hcut2].
  split; [|split].
  - unfold clean_response_text, PyStr.strip.
    change (PyStr.lstrip ("```json" +:+ PyStr.nl +:+ body +:+ PyStr.nl +:+ "```"))
      with ("```json" +:+ PyStr.nl +:+ body +:+ PyStr.nl +:+ "```").
    rewrite (Hend "```json").
    change (String.prefix "```json"
              ("```json" +:+ PyStr.nl +:+ body +:+ PyStr.nl +:+ "```")) with true.
    cbv iota.
    change (PyStr.drop_first
              ("```json" +:+ PyStr.nl +:+ body +:+ PyStr.nl +:+ "```") 7)
      with (PyStr.nl +:+ body +:+ PyStr.nl +:+ "```").
    change (String.prefix "```" (PyStr.nl +:+ body +:+ PyStr.nl +:+ "```"))
      with false.
    cbv iota. rewrite Hcut1, Hcut2. by apply strip_between_nl.
  - unfold clean_response_text, PyStr.strip.
    change (PyStr.lstrip ("```" +:+ PyStr.nl +:+ body +:+ PyStr.nl +:+ "```"))
      with ("```" +:+ PyStr.nl +:+ body +:+ PyStr.nl +:+ "```").
    rewrite (Hend "```").
    change (String.prefix "```json"
              ("```" +:+ PyStr.nl +:+ body +:+ PyStr.nl +:+ "```")) with false.
    cbv iota.
    change (String.prefix "```"
              ("```" +:+ PyStr.nl +:+ body +:+ PyStr.nl +:+ "```")) with true.
    cbv iota.
    change (PyStr.drop_first
              ("```" +:+ PyStr.nl +:+ body +:+ PyStr.nl +:+ "```") 3)
      with (PyStr.nl +:+ body +:+ PyStr.nl +:+ "```").
    rewrite Hcut1, Hcut2. by apply strip_between_nl.
  - intros Hpre Hsuf. unfold clean_response_text, PyStr.strip.
    rewrite Hl, Hr.
    rewrite (prefix_fence_json body Hpre).
    by rewrite Hpre, Hsuf, Hl, Hr.
Qed.

Lemma clean_response_text_fenced_witness :
  clean_response_text
    ("```json" +:+ PyStr.nl +:+ "[1, 2]" +:+ PyStr.nl +:+ "```") = "[1, 2]".
Proof.
  by apply (clean_response_text_fenced "[1, 2]").
Defined.

(** X24. [build_prompt] decides on the "more files" line by the number of
    characters of the joined paths, not by the number of paths: for fewer
    than 100 paths whose joined text is longer than 100 characters, the tree
    section lists every path and ends with a line that states a negative
    number of further files. *)
Theorem prompt_tree_str_short_tree (file_tree : list string) :
  Py.len file_tree < 100 →
  100 < Py.len_str (PyStr.join PyStr.nl file_tree) →
  prompt_tree_str file_tree
  = PyStr.join PyStr.nl file_tree +:+ PyStr.nl +:+ "... and -"
      +:+ PyStr.str (100 - Py.len file_tree) +:+ " more files".
Proof.
  intros Hlen Hchars. unfold prompt_tree_str.
  rewrite take_ge by (unfold Py.len in Hlen; lia).
  destruct (Z.gtb_spec (Py.len_str (PyStr.join PyStr.nl file_tree)) 100); [|lia].
  rewrite (pretty_negative (Py.len file_tree - 100)) by lia.
  by replace (- (Py.len file_tree - 100)) with (100 - Py.len file_tree) by lia.
Qed.

Lemma prompt_tree_str_short_tree_witness :
  prompt_tree_str
    [ "src/services/analysis/github_client.py";
      "src/services/analysis/gemini_client.py";
      "src/services/analysis/file_scorer.py" ]
  = "src/services/analysis/github_client.py" +:+ PyStr.nl
    +:+ "src/services/analysis/gemini_client.py" +:+ PyStr.nl
    +:+ "src/services/analysis/file_scorer.py" +:+ PyStr.nl
    +:+ "... and -97 more files".
Proof.
  rewrite (prompt_tree_str_short_tree
             [ "src/services/analysis/github_client.py";
               "src/services/analysis/gemini_client.py";
               "src/services/analysis/file_scorer.py" ]).
  - reflexivity.
  - vm_compute. reflexivity.
  - vm_compute. reflexivity.
Defined.

(** X25. A file takes at most 5,016 characters of content in the prompt: a
    content of up to 5,000 characters is shown as it is, a longer one is cut
    to its first 5,000 characters, followed by the truncation mark. *)
Theorem prompt_content_bound (content : string) :
  Py.len_str (prompt_content content) ≤ 5016 ∧
  (Py.len_str content ≤ 5000 → prompt_content content = content) ∧
  (5000 < Py.len_str content →
   ∃ mark, prompt_content content = PyStr.take_first content 5000 +:+ mark ∧
           Py.len_str (PyStr.take_first content 5000) = 5000 ∧
           Py.len_str mark = 16).
Proof.
  unfold prompt_content, Py.len_str.
  destruct (Z.gtb_spec (Z.of_nat (String.length content)) 5000) as [Hgt|Hle].
  - assert (String.length (PyStr.take_first content 5000) = 5000%nat) as Htake.
    { rewrite take_first_length. lia. }
    split; [|split; [lia|]].
    + rewrite length_append, Htake. simpl. lia.
    + intros _. eexists. split; [done|]. rewrite Htake. split; [lia|done].
  - split; [lia|]. split; [done|lia].
Qed.

(** ** More on the two Gemini calls *)



(** X27. The validation of line 291, taken by itself, keeps of the answered
    elements exactly the strings that are paths of [file_tree], in the
    order of the answer and with its repetitions; an element that is not a
    string is left out without an error. *)
Theorem validation_keeps_tree_paths (files : list json)
    (file_tree : list string) :
  valid_files_of files file_tree
  = filter (λ p, p ∈ file_tree) (omap json_string files).
Proof.
  induction files as [|j files IH]; [done|].
  destruct j; simpl; try done.
  rewrite filter_cons, IH. case_bool_decide; by case_decide.
Qed.
